(** * DokuWiki manager plugin: authenticated JSON-RPC client and error enrichment

    A shallow embedding of [src/errorHandler.js], [src/auth.js] and
    [src/apiClient.js].  JavaScript [Error] objects live in a store and are
    passed around by reference, so that in-place updates ([error.message = ...],
    [enhancedError.message += ...]) and aliasing (a function returning the very
    object it was given) are visible in the model. *)

From stdpp Require Import base option list strings pretty gmap.
From Stdlib Require Import ZArith Ascii Lia.

Open Scope Z_scope.
Set Warnings "-register-all".

(** ** JavaScript strings

    Strings are sequences of 8-bit characters (the domain on which [btoa] is
    defined); [+:+] is concatenation, as produced by template literals. *)

Module JsString.

(** [s.startsWith(t)] *)
Fixpoint startsWith (s t : string) {struct t} : bool :=
  match t with
  | EmptyString => true
  | String c t' =>
      match s with
      | EmptyString => false
      | String d s' => if Ascii.eqb c d then startsWith s' t' else false
      end
  end.

(** [s.includes(t)]: [t] occurs somewhere in [s]. *)
Fixpoint includes (s t : string) : bool :=
  startsWith s t ||
  match s with
  | EmptyString => false
  | String _ s' => includes s' t
  end.

(** [s.endsWith(t)]: some suffix of [s] is [t]. *)
Fixpoint endsWith (s t : string) : bool :=
  String.eqb s t ||
  match s with
  | EmptyString => false
  | String _ s' => endsWith s' t
  end.

(** Truthiness of a string: only the empty string is falsy. *)
Definition truthy (s : string) : bool :=
  match s with EmptyString => false | String _ _ => true end.

(** Number-to-string conversion of an integer, as done by a template
    literal [`${n}`]: decimal digits with a leading minus sign (what
    JavaScript prints for integers below 10^21 in magnitude). *)
Definition ofNumber (n : Z) : string := pretty n.

End JsString.

Import JsString.

(** ** Endpoint derivation ([createJsonRpcClient], "Format base URL") *)

Definition baseUrl (wikiUrl : string) : string :=
  if endsWith wikiUrl "/"
  then wikiUrl +:+ "lib/exe/jsonrpc.php"
  else wikiUrl +:+ "/lib/exe/jsonrpc.php".

(** ** Error objects and the object store

    An [ErrorObj] records what reading [.message], [.code] and
    [.originalMessage] yields; [None] is JavaScript's [undefined].  Codes are
    integers, as in the JSON-RPC wire format. *)

Record ErrorObj := mkError {
  message : option string;
  code : option Z;
  originalMessage : option string
}.

Definition loc := nat.

(** The store: the object with reference [r] sits at index [r]. *)
Abbreviation heap := (list ErrorObj).

(** How a piece of JavaScript completes: normally with a value, or abruptly
    with a thrown reference. *)
Inductive completion (A : Type) : Type :=
  | Normal (a : A)
  | Throw (r : loc).
Arguments Normal {A} a.
Arguments Throw {A} r.

(** Computations over the store.  [None] means that the model has no
    outcome: it arises from a dangling reference, which no JavaScript program
    can produce, and from a conversion that lies outside the modelled values
    (see [template_literal]). *)
Definition Js (A : Type) : Type := heap → option (completion A * heap).

Definition ret {A} (a : A) : Js A := λ h, Some (Normal a, h).

Definition throw {A} (r : loc) : Js A := λ h, Some (Throw r, h).

Definition bind {A B} (m : Js A) (k : A → Js B) : Js B := λ h,
  match m h with
  | Some (Normal a, h') => k a h'
  | Some (Throw r, h') => Some (Throw r, h')
  | None => None
  end.

(** [try { m } catch (error) { handler error }] *)
Definition try_catch {A} (m : Js A) (handler : loc → Js A) : Js A := λ h,
  match m h with
  | Some (Throw r, h') => handler r h'
  | other => other
  end.

Declare Scope js_scope.
Delimit Scope js_scope with js.
Notation "x <- m ;; k" := (bind m (λ x, k))
  (at level 100, m at next level, right associativity) : js_scope.
Notation "m ;; k" := (bind m (λ _, k))
  (at level 100, right associativity) : js_scope.
Open Scope js_scope.

(** Property reads and writes on the object behind a reference. *)
Definition read (r : loc) : Js ErrorObj := λ h,
  match h !! r with
  | Some e => Some (Normal e, h)
  | None => None
  end.

Definition update (r : loc) (f : ErrorObj → ErrorObj) : Js unit := λ h,
  match h !! r with
  | Some e => Some (Normal tt, <[r := f e]> h)
  | None => None
  end.

Definition get_message (r : loc) : Js (option string) := e <- read r ;; ret (message e).
Definition get_code (r : loc) : Js (option Z) := e <- read r ;; ret (code e).
Definition get_originalMessage (r : loc) : Js (option string) :=
  e <- read r ;; ret (originalMessage e).

Definition set_message (r : loc) (v : option string) : Js unit :=
  update r (λ e, mkError v (code e) (originalMessage e)).
Definition set_code (r : loc) (v : option Z) : Js unit :=
  update r (λ e, mkError (message e) v (originalMessage e)).
Definition set_originalMessage (r : loc) (v : option string) : Js unit :=
  update r (λ e, mkError (message e) (code e) v).

(** [new Error(msg)]: a fresh object.  Its [.message] is always a string:
    the argument when one is given, and otherwise the empty string inherited
    from [Error.prototype]. *)
Definition new_Error (msg : option string) : Js loc := λ h,
  Some (Normal (length h), h ++ [mkError (Some (default "" msg)) None None]).

(** An error object handed over by the runtime (a rejected [fetch], a
    failed [response.json()]) enters the store as it is. *)
Definition runtime_error (e : ErrorObj) : Js loc := λ h,
  Some (Normal (length h), h ++ [e]).

(** Calling a string method on [undefined] raises a [TypeError]. *)
Definition throw_TypeError {A} (method : string) : Js A :=
  r <- new_Error (Some ("Cannot read properties of undefined (reading '"
                        +:+ method +:+ "')")) ;;
  throw r.

(** [recv.includes(arg)] where [recv] may be [undefined]. *)
Definition call_includes (recv : option string) (arg : string) : Js bool :=
  match recv with
  | Some s => ret (includes s arg)
  | None => throw_TypeError "includes"
  end.

(** String conversion of a possibly [undefined] string, as performed by
    [+] and by template literals. *)
Definition toString (v : option string) : string := default "undefined" v.

(** Truthiness of a possibly [undefined] number and string. *)
Definition truthy_number (v : option Z) : bool :=
  match v with
  | Some n => negb (n =? 0)
  | None => false
  end.

Definition truthy_string (v : option string) : bool :=
  match v with
  | Some s => truthy s
  | None => false
  end.

(** [v === n] for a possibly [undefined] number [v]. *)
Definition strict_eq (v : option Z) (n : Z) : bool :=
  match v with
  | Some c => c =? n
  | None => false
  end.

(** ** errorHandler.js *)

Definition ERROR_MESSAGES : gmap Z string :=
  list_to_map [
    (0, "Success");
    (111, "You are not allowed to read this page");
    (121, "The requested page (revision) does not exist");
    (131, "Empty or invalid page ID given");
    (132, "Refusing to write an empty new wiki page");
    (133, "The page is currently locked");
    (134, "The page content was blocked");
    (211, "You are not allowed to read this media file");
    (212, "You are not allowed to delete this media file");
    (221, "The requested media file (revision) does not exist");
    (231, "Empty or invalid media ID given");
    (232, "Media file is still referenced");
    (233, "Failed to delete media file");
    (234, "Invalid base64 encoded data");
    (235, "Empty file given");
    (236, "Failed to save media");
    (401, "Authentication failed. Please check your credentials");
    (403, "Insufficient permissions to perform this operation");
    (500, "Server error occurred. Please try again later");
    (1000, "Unable to connect to the DokuWiki server");
    (1001, "Network error when connecting to server");
    (1002, "Timeout when connecting to server")
  ].

(** [ERROR_MESSAGES[code]] for a possibly [undefined] code. *)
Definition ERROR_MESSAGES_at (v : option Z) : option string :=
  match v with
  | Some c => ERROR_MESSAGES !! c
  | None => None
  end.

Definition handleApiError (error : loc) : Js loc :=
  c <- get_code error ;;
  if negb (truthy_number c) then ret error
  else
    m <- get_message error ;;
    enhancedError <- new_Error m ;;
    c <- get_code error ;;
    set_code enhancedError c ;;
    m <- get_message error ;;
    set_originalMessage enhancedError m ;;
    c <- get_code error ;;
    if truthy_string (ERROR_MESSAGES_at c) then
      set_message enhancedError
        (Some (toString (ERROR_MESSAGES_at c) +:+ " (Code: "
               +:+ from_option ofNumber "undefined" c +:+ ")")) ;;
      orig <- get_originalMessage error ;;
      if truthy_string orig then
        msg <- get_message enhancedError ;;
        found <- call_includes msg (toString orig) ;;
        if negb found then
          msg <- get_message enhancedError ;;
          set_message enhancedError (Some (toString msg +:+ " - " +:+ toString orig)) ;;
          ret enhancedError
        else ret enhancedError
      else ret enhancedError
    else ret enhancedError.

Definition AUTH_SUGGESTION : string :=
  "Check your username and password in plugin settings. Make sure you have the correct authentication method selected.".
Definition PERMISSION_SUGGESTION : string :=
  "Your account doesn't have sufficient permissions. Contact your wiki administrator for access.".
Definition CONNECTION_SUGGESTION : string :=
  "Check your network connection and verify that the DokuWiki URL is correct in plugin settings.".
Definition LOCKED_SUGGESTION : string :=
  "The page is currently being edited by another user. Try again later.".
Definition SERVER_SUGGESTION : string :=
  "The server is experiencing issues. Please try again later or contact your wiki administrator.".

(** The result is a suggestion, or [None] for JavaScript's [null]. *)
Definition getRecoverySuggestion (error : loc) : Js (option string) :=
  e <- read error ;;
  match code e with
  | None => ret None
  | Some c =>
      if c =? 0 then ret None
      else
        auth <- (if c =? 401 then ret true
                 else call_includes (message e) "Authentication failed") ;;
        if auth then ret (Some AUTH_SUGGESTION)
        else if (c =? 403) || (c =? 111) || (c =? 212) then ret (Some PERMISSION_SUGGESTION)
        else if (1000 <=? c) && (c <? 2000) then ret (Some CONNECTION_SUGGESTION)
        else if c =? 133 then ret (Some LOCKED_SUGGESTION)
        else if (500 <=? c) && (c <? 600) then ret (Some SERVER_SUGGESTION)
        else ret None
  end.

(** ** JSON values

    Results and parameters of remote calls: whatever [JSON.parse] can
    produce, and [undefined] for a member that is not there. *)

Inductive value : Type :=
  | VUndefined
  | VNull
  | VBool (b : bool)
  | VNumber (n : Z)
  | VString (s : string)
  | VArray (items : list value)
  | VObject (members : list (string * value)).

(** A default parameter [params = {}]: the default replaces [undefined]. *)
Definition default_params (params : value) : value :=
  match params with
  | VUndefined => VObject []
  | _ => params
  end.

(** ** auth.js *)

Record UserSettings := mkSettings {
  wikiUrl : option string;
  authMethod : option string;
  username : option string;
  password : option string
}.

(** [btoa]: standard base64 of a string of 8-bit characters.  These are the
    strings on which [btoa] is defined: on a string with a character above
    U+00FF it throws, and such strings are not values of this development,
    whose strings are 8-bit throughout. *)
Module Base64.

Definition alphabet : string :=
  "ABCDEFGHIJKLMNOPQRSTUVWXYZabcdefghijklmnopqrstuvwxyz0123456789+/".

Definition digit (n : N) : ascii :=
  default "="%char (String.get (N.to_nat n) alphabet).

Definition byte (a : ascii) : N := N_of_ascii a.

Fixpoint btoa (s : string) : string :=
  match s with
  | EmptyString => EmptyString
  | String a EmptyString =>
      let n := (byte a * 65536)%N in
      String (digit (n / 262144)) (String (digit (n / 4096 mod 64)) "==")
  | String a (String b EmptyString) =>
      let n := (byte a * 65536 + byte b * 256)%N in
      String (digit (n / 262144)) (String (digit (n / 4096 mod 64))
        (String (digit (n / 64 mod 64)) "="))
  | String a (String b (String c rest)) =>
      let n := (byte a * 65536 + byte b * 256 + byte c)%N in
      String (digit (n / 262144)) (String (digit (n / 4096 mod 64))
        (String (digit (n / 64 mod 64)) (String (digit (n mod 64)) (btoa rest))))
  end.

End Base64.

Import Base64.

Definition throw_new_Error {A} (msg : string) : Js A :=
  r <- new_Error (Some msg) ;; throw r.

Definition getAuthHeaders (userSettings : option UserSettings) : Js (gmap string string) :=
  match userSettings with
  | None => throw_new_Error "User settings are required"
  | Some s =>
      if negb (truthy_string (wikiUrl s)) then
        throw_new_Error "DokuWiki URL is required in settings"
      else if negb (truthy_string (authMethod s)) then
        throw_new_Error "Authentication method is required in settings"
      else if negb (truthy_string (password s)) then
        throw_new_Error "Password/Token is required in settings"
      else
        let headers : gmap string string := {[ "Content-Type" := "application/json" ]} in
        if bool_decide (authMethod s = Some "BASIC_AUTH") then
          if negb (truthy_string (username s)) then
            throw_new_Error "Username is required for Basic Authentication"
          else
            let credentials := btoa (toString (username s) +:+ ":" +:+ toString (password s)) in
            ret (<["Authorization" := "Basic " +:+ credentials]> headers)
        else if bool_decide (authMethod s = Some "BEARER_TOKEN") then
          ret (<["Authorization" := "Bearer " +:+ toString (password s)]> headers)
        else
          throw_new_Error ("Unsupported authentication method: " +:+ toString (authMethod s)
                           +:+ ". Use BASIC_AUTH or BEARER_TOKEN.")
  end.

(** The wire format.  The request body is kept as the record that the code
    passes to [JSON.stringify]; the response body is what [response.json()]
    resolves to. *)
Record RpcRequest := mkRpcRequest {
  jsonrpc : string;
  id : Z;
  method : string;
  params : value
}.

Record Request := mkRequest {
  http_method : string;
  headers : gmap string string;
  body : RpcRequest
}.

Module Rpc.
(** The members of a JSON-RPC [error] object. *)
Record error_object := mkErrorObject {
  code : option Z;
  message : option string
}.
End Rpc.

(** The [error] member of a response body: not there, [null], or an object.
    Of these only the object is truthy, whatever its members hold. *)
Inductive error_member : Type :=
  | ErrorAbsent
  | ErrorNull
  | ErrorObject (e : Rpc.error_object).

(** A response body; [result] is [VUndefined] when the member is missing. *)
Record RpcResponse := mkRpcResponse {
  result : value;
  error : error_member
}.

Inductive JsonOutcome : Type :=
  | JsonParsed (parsed : RpcResponse)
  | JsonRejected (e : ErrorObj).

Record Response := mkResponse {
  ok : bool;
  status : Z;
  text : string;
  json : JsonOutcome
}.

Inductive FetchOutcome : Type :=
  | FetchResolved (response : Response)
  | FetchRejected (e : ErrorObj).

Module JsonRpcClient.
Record t := mk {
  baseUrl : string;
  headers : gmap string string
}.
End JsonRpcClient.

Section Transport.

(** The network and the clock are the environment of a call. *)
Variable fetch : string → Request → FetchOutcome.
Variable Date_now : Z.

Definition createJsonRpcClient (userSettings : option UserSettings) : Js JsonRpcClient.t :=
  match userSettings with
  | None => throw_new_Error "User settings are required"
  | Some s =>
      match wikiUrl s with
      | None => throw_TypeError "endsWith"
      | Some url =>
          headers <- getAuthHeaders userSettings ;;
          ret (JsonRpcClient.mk (baseUrl url) headers)
      end
  end.

(** [client.call(method, params)] of the JSON-RPC client. *)
Definition jsonRpcCall (this : JsonRpcClient.t) (method : string) (params : value) : Js value :=
  let params := default_params params in
  try_catch
    (match fetch (JsonRpcClient.baseUrl this)
             (mkRequest "POST" (JsonRpcClient.headers this)
                (mkRpcRequest "2.0" Date_now method params)) with
     | FetchRejected e => r <- runtime_error e ;; throw r
     | FetchResolved response =>
         if negb (ok response) then
           throw_new_Error ("HTTP error " +:+ ofNumber (status response) +:+ ": "
                            +:+ text response)
         else
           match json response with
           | JsonRejected e => r <- runtime_error e ;; throw r
           | JsonParsed result_ =>
               match error result_ with
               | ErrorObject e =>
                   error <- new_Error (Rpc.message e) ;;
                   set_code error (Rpc.code e) ;;
                   throw error
               | ErrorAbsent | ErrorNull => ret (result result_)
               end
           end
     end)
    (λ error,
       m <- get_message error ;;
       found <- call_includes m "DokuWiki API error" ;;
       (if negb found then
          m <- get_message error ;;
          set_message error
            (Some ("DokuWiki API error calling " +:+ method +:+ ": " +:+ toString m))
        else ret tt) ;;
       throw error).

End Transport.

(** ** apiClient.js *)

Definition POSSIBLE_SOLUTION : string :=
  String "010" (String "010" "Possible solution: ").

Section ApiClient.

(** [this._jsonRpcClient.call] *)
Variable jsonRpcClient_call : string → value → Js value.

(** The handler of [client.call]'s [catch]. *)
Definition call_catch (error : loc) : Js value :=
  enhancedError <- handleApiError error ;;
  recoverySuggestion <- getRecoverySuggestion enhancedError ;;
  (if truthy_string recoverySuggestion then
     m <- get_message enhancedError ;;
     set_message enhancedError
       (Some (toString m +:+ POSSIBLE_SOLUTION +:+ toString recoverySuggestion))
   else ret tt) ;;
  throw enhancedError.

Definition call (method : string) (params : value) : Js value :=
  let params := default_params params in
  try_catch (jsonRpcClient_call method params) call_catch.

Definition pageExists (pageId : string) : Js bool :=
  try_catch
    (pageInfo <- call "core.getPageInfo" (VObject [("page", VString pageId)]) ;;
     ret true)
    (λ error,
       c <- get_code error ;;
       if strict_eq c 121 then ret false
       else throw error).

Definition mediaExists (mediaId : string) : Js bool :=
  try_catch
    (mediaInfo <- call "core.getMediaInfo" (VObject [("media", VString mediaId)]) ;;
     ret true)
    (λ error,
       c <- get_code error ;;
       if strict_eq c 221 then ret false
       else throw error).

End ApiClient.

(** ** Summaries used in the statements *)

(** The message that [handleApiError] gives to the object it builds for an
    error [e] with a truthy code, read off the assignments to
    [enhancedError.message]. *)
Definition enhanced_message (e : ErrorObj) : string :=
  if truthy_string (ERROR_MESSAGES_at (code e)) then
    let described :=
      toString (ERROR_MESSAGES_at (code e)) +:+ " (Code: "
      +:+ from_option ofNumber "undefined" (code e) +:+ ")" in
    if truthy_string (originalMessage e)
       && negb (includes described (toString (originalMessage e)))
    then described +:+ " - " +:+ toString (originalMessage e)
    else described
  else default "" (message e).

Definition enhanced (e : ErrorObj) : ErrorObj :=
  mkError (Some (enhanced_message e)) (code e) (message e).

(** The message that the specification asks of enrichment, in its words:
    "<description> (Code: <code>)", and, if the original technical message
    [m] is non-empty and not already contained in it, " - <m>" appended. *)
Definition specified_message (d : string) (c : Z) (m : string) : string :=
  let described := d +:+ " (Code: " +:+ ofNumber c +:+ ")" in
  if truthy m && negb (includes described m)
  then described +:+ " - " +:+ m
  else described.

(** The exact matches and ranges that the specification lists for recovery
    suggestions: 401; 403, 111, 212; [1000, 2000); 133; [500, 600). *)
Definition listed_code (c : Z) : bool :=
  (c =? 401) || ((c =? 403) || (c =? 111) || (c =? 212))
  || ((1000 <=? c) && (c <? 2000)) || (c =? 133) || ((500 <=? c) && (c <? 600)).

(** The object raised when [includes] is called on [undefined]. *)
Definition TypeError_includes : ErrorObj :=
  mkError (Some "Cannot read properties of undefined (reading 'includes')") None None.

(** The message of an error raised inside [jsonRpcCall], after its [catch]
    has added the calling context. *)
Definition with_context (method : string) (m : string) : string :=
  if includes m "DokuWiki API error" then m
  else "DokuWiki API error calling " +:+ method +:+ ": " +:+ m.

(** The suggestion that [getRecoverySuggestion] picks for a truthy code [c]
    on an error whose message is the string [m]. *)
Definition suggestion (c : Z) (m : string) : option string :=
  if (c =? 401) || includes m "Authentication failed" then Some AUTH_SUGGESTION
  else if (c =? 403) || (c =? 111) || (c =? 212) then Some PERMISSION_SUGGESTION
  else if (1000 <=? c) && (c <? 2000) then Some CONNECTION_SUGGESTION
  else if c =? 133 then Some LOCKED_SUGGESTION
  else if (500 <=? c) && (c <? 600) then Some SERVER_SUGGESTION
  else None.

(** The message after [client.call] has appended a suggestion, if any. *)
Definition with_suggestion (m : string) (s : option string) : string :=
  if truthy_string s then m +:+ POSSIBLE_SOLUTION +:+ toString s else m.

(** What an existence check with not-found code [notFound] must make of
    the outcome [out] (in store [h1]) of the call it wraps: [true] on any
    result, [false] exactly for a failure with that code, and any other
    failure raised again as it is. *)
Definition exists_check (notFound : Z) (out : completion value) (h1 : heap)
    (res : option (completion bool * heap)) : Prop :=
  (∀ v, out = Normal v → res = Some (Normal true, h1)) ∧
  (∀ r e, out = Throw r → h1 !! r = Some e → code e = Some notFound →
     res = Some (Normal false, h1)) ∧
  (∀ r e, out = Throw r → h1 !! r = Some e → code e ≠ Some notFound →
     res = Some (Throw r, h1)) ∧
  (res = Some (Normal false, h1)
   ↔ ∃ r e, out = Throw r ∧ h1 !! r = Some e ∧ code e = Some notFound).

(** A transport that rejects every call with the given error, as the
    mocked client of the repository's tests does. *)
Definition rejecting (e : ErrorObj) : string → value → Js value :=
  λ _ _, r <- runtime_error e ;; throw r.

(** A network that answers every request with the given response. *)
Definition answering (response : Response) : string → Request → FetchOutcome :=
  λ _ _, FetchResolved response.

(** ** auth.js and apiClient.js: connection test and client construction *)

(** [testConnection(client)]; [client.call] is called with the method name
    only, so its [params] is [undefined]. *)
Definition testConnection (client_call : string → value → Js value) : Js bool :=
  try_catch
    (wikiTitle <- client_call "core.getWikiTitle" VUndefined ;;
     ret true)
    (λ error,
       m <- get_message error ;;
       throw_new_Error ("Failed to connect to DokuWiki: " +:+ toString m)).

Section Construction.

Variable fetch : string → Request → FetchOutcome.

(** [createApiClient(userSettings, testConnection)].  The object it returns
    wraps the JSON-RPC client ([_jsonRpcClient]); its methods are [call],
    [pageExists] and [mediaExists] above, over that client's [call].
    [Date_now] is what the clock reads when the connection test is sent. *)
Definition createApiClient (Date_now : Z) (userSettings : option UserSettings)
    (testConnectionFlag : bool) : Js JsonRpcClient.t :=
  try_catch
    (jsonRpcClient <- createJsonRpcClient userSettings ;;
     (if testConnectionFlag then
        connected <- testConnection (jsonRpcCall fetch Date_now jsonRpcClient) ;;
        ret tt
      else ret tt) ;;
     ret jsonRpcClient)
    (λ error,
       m <- get_message error ;;
       found <- call_includes m "DokuWiki" ;;
       (if negb found then
          m <- get_message error ;;
          set_message error
            (Some ("Failed to initialize DokuWiki client: " +:+ toString m))
        else ret tt) ;;
       throw error).

End Construction.

(** ** implementation.js: the plugin's operations *)

(** Truthiness of a value: [undefined], [null], [false], [0] and the empty
    string are falsy; every array and object is truthy. *)
Definition truthy_value (v : value) : bool :=
  match v with
  | VUndefined | VNull => false
  | VBool b => b
  | VNumber n => negb (n =? 0)
  | VString s => truthy s
  | VArray _ | VObject _ => true
  end.

(** [a || b] *)
Definition or_else (a b : value) : value := if truthy_value a then a else b.

(** The value of a member of an object literal or parsed object: the last
    member with that name counts. *)
Fixpoint last_member (members : list (string * value)) (key : string) : option value :=
  match members with
  | [] => None
  | (k, v) :: rest =>
      match last_member rest key with
      | Some w => Some w
      | None => if String.eqb k key then Some v else None
      end
  end.

(** [obj.key], for the member names that the plugin reads (none of them is
    a member of a built-in prototype): reading from [undefined] or [null]
    raises a [TypeError], reading from any other primitive or from an array
    gives [undefined]. *)
Definition get_member (obj : value) (key : string) : Js value :=
  match obj with
  | VUndefined => throw_TypeError key
  | VNull =>
      throw_new_Error ("Cannot read properties of null (reading '" +:+ key +:+ "')")
  | VObject members => ret (default VUndefined (last_member members key))
  | VBool _ | VNumber _ | VString _ | VArray _ => ret VUndefined
  end.

(** [v === "s"] *)
Definition is_string (v : value) (s : string) : bool :=
  match v with
  | VString t => String.eqb t s
  | _ => false
  end.

(** [v === undefined] *)
Definition is_undefined (v : value) : bool :=
  match v with
  | VUndefined => true
  | _ => false
  end.

(** The outcome of converting a value to a string inside a template
    literal: a string; a [TypeError], because the value is an object that
    cannot be converted to a primitive; or no outcome in this model. *)
Inductive conversion : Type :=
  | Converted (s : string)
  | NotConvertible
  | Unmodelled.

(** [Array.prototype.join(",")] over already converted elements: the first
    element that is not a string decides. *)
Fixpoint join (parts : list conversion) : conversion :=
  match parts with
  | [] => Converted ""
  | [part] => part
  | Converted s :: rest =>
      match join rest with
      | Converted t => Converted (s +:+ "," +:+ t)
      | other => other
      end
  | other :: _ => other
  end.

(** [`${v}`].  A number is printed digit by digit as long as it is a safe
    integer (below 2^53 in magnitude); larger numbers, which JavaScript
    rounds and prints in other ways, have no outcome here.  An object
    without a [toString] member of its own prints as "[object Object]"; one
    with such a member (never a function, in a value that came from JSON)
    cannot be converted.  An array joins its elements, [undefined] and
    [null] counting as empty. *)
Fixpoint template_literal (v : value) : conversion :=
  match v with
  | VUndefined => Converted "undefined"
  | VNull => Converted "null"
  | VBool true => Converted "true"
  | VBool false => Converted "false"
  | VNumber n =>
      if Z.abs n <? 9007199254740992 then Converted (ofNumber n) else Unmodelled
  | VString s => Converted s
  | VArray items =>
      join
        ((fix each (l : list value) : list conversion :=
            match l with
            | [] => []
            | VUndefined :: rest | VNull :: rest => Converted "" :: each rest
            | item :: rest => template_literal item :: each rest
            end) items)
  | VObject members =>
      match last_member members "toString" with
      | Some _ => NotConvertible
      | None => Converted "[object Object]"
      end
  end.

(** [throw new Error(`Unsupported operation: ${operation}`)].  When the
    conversion of [operation] raises a [TypeError], that error is thrown in
    place of the new one. *)
Definition throw_unsupported (operation : value) : Js value :=
  match template_literal operation with
  | Converted name => throw_new_Error ("Unsupported operation: " +:+ name)
  | NotConvertible => throw_new_Error "Cannot convert object to primitive value"
  | Unmodelled => λ _, None
  end.

(** The plugin's settings: the credentials read by [getAuthHeaders], and
    the optional default namespace. *)
Record PluginSettings := mkPluginSettings {
  credentials : UserSettings;
  defaultNamespace : option string
}.

(** [userSettings?.defaultNamespace] *)
Definition optional_defaultNamespace (userSettings : option PluginSettings) : value :=
  match userSettings with
  | Some s => from_option VString VUndefined (defaultNamespace s)
  | None => VUndefined
  end.

Section Operations.

(** [client.call] of the client made by [createApiClient]. *)
Variable client_call : string → value → Js value.

Definition getPage (params : value) : Js value :=
  pageId <- get_member params "pageId" ;;
  if negb (truthy_value pageId) then
    throw_new_Error "Page ID is required for get_page operation"
  else
    try_catch
      (page <- get_member params "pageId" ;;
       rev <- get_member params "rev" ;;
       client_call "core.getPage"
         (VObject [("page", page); ("rev", or_else rev (VNumber 0))]))
      (λ error,
         c <- get_code error ;;
         if strict_eq c 121 then ret (VString "")
         else throw error).

Definition savePage (params : value) : Js value :=
  pageId <- get_member params "pageId" ;;
  if negb (truthy_value pageId) then
    throw_new_Error "Page ID is required for save_page operation"
  else
    content <- get_member params "content" ;;
    if is_undefined content then
      throw_new_Error "Content is required for save_page operation"
    else
      page <- get_member params "pageId" ;;
      text_ <- get_member params "content" ;;
      summary <- get_member params "summary" ;;
      minor <- get_member params "minor" ;;
      client_call "core.savePage"
        (VObject [("page", page); ("text", text_);
                  ("summary", or_else summary (VString ""));
                  ("isminor", or_else minor (VBool false))]).

Definition appendPage (params : value) : Js value :=
  pageId <- get_member params "pageId" ;;
  if negb (truthy_value pageId) then
    throw_new_Error "Page ID is required for append_page operation"
  else
    content <- get_member params "content" ;;
    if negb (truthy_value content) then
      throw_new_Error "Content is required for append_page operation"
    else
      page <- get_member params "pageId" ;;
      text_ <- get_member params "content" ;;
      summary <- get_member params "summary" ;;
      minor <- get_member params "minor" ;;
      client_call "core.appendPage"
        (VObject [("page", page); ("text", text_);
                  ("summary", or_else summary (VString ""));
                  ("isminor", or_else minor (VBool false))]).

Definition listPages (params : value) (userSettings : option PluginSettings) : Js value :=
  ns <- get_member params "namespace" ;;
  let namespace :=
    or_else (or_else ns (optional_defaultNamespace userSettings)) (VString "") in
  d <- get_member params "depth" ;;
  let depth := or_else d (VNumber 1) in
  ih <- get_member params "include_hash" ;;
  let includeHash := or_else ih (VBool false) in
  client_call "core.listPages"
    (VObject [("namespace", namespace); ("depth", depth); ("hash", includeHash)]).

Definition searchPages (params : value) : Js value :=
  searchQuery <- get_member params "searchQuery" ;;
  missing <- (if negb (truthy_value searchQuery) then
                q <- get_member params "query" ;; ret (negb (truthy_value q))
              else ret false) ;;
  if (missing : bool) then
    throw_new_Error "Search query is required for search_pages operation"
  else
    q <- get_member params "query" ;;
    query <- (if truthy_value q then ret q else get_member params "searchQuery") ;;
    client_call "core.searchPages" (VObject [("query", query)]).

Definition getPageInfo (params : value) : Js value :=
  pageId <- get_member params "pageId" ;;
  if negb (truthy_value pageId) then
    throw_new_Error "Page ID is required for get_page_info operation"
  else
    page <- get_member params "pageId" ;;
    rev <- get_member params "rev" ;;
    author <- get_member params "include_author" ;;
    hash <- get_member params "include_hash" ;;
    client_call "core.getPageInfo"
      (VObject [("page", page); ("rev", or_else rev (VNumber 0));
                ("author", or_else author (VBool false));
                ("hash", or_else hash (VBool false))]).

Definition getPageHistory (params : value) : Js value :=
  pageId <- get_member params "pageId" ;;
  if negb (truthy_value pageId) then
    throw_new_Error "Page ID is required for get_page_history operation"
  else
    page <- get_member params "pageId" ;;
    first <- get_member params "first" ;;
    client_call "core.getPageHistory"
      (VObject [("page", page); ("first", or_else first (VNumber 0))]).

Definition listMedia (params : value) (userSettings : option PluginSettings) : Js value :=
  ns <- get_member params "namespace" ;;
  let namespace :=
    or_else (or_else ns (optional_defaultNamespace userSettings)) (VString "") in
  d <- get_member params "depth" ;;
  let depth := or_else d (VNumber 1) in
  p <- get_member params "pattern" ;;
  let pattern := or_else p (VString "") in
  ih <- get_member params "include_hash" ;;
  let includeHash := or_else ih (VBool false) in
  client_call "core.listMedia"
    (VObject [("namespace", namespace); ("pattern", pattern);
              ("depth", depth); ("hash", includeHash)]).

Definition getMedia (params : value) : Js value :=
  mediaId <- get_member params "mediaId" ;;
  if negb (truthy_value mediaId) then
    throw_new_Error "Media ID is required for get_media operation"
  else
    media <- get_member params "mediaId" ;;
    rev <- get_member params "rev" ;;
    client_call "core.getMedia"
      (VObject [("media", media); ("rev", or_else rev (VNumber 0))]).

Definition saveMedia (params : value) : Js value :=
  mediaId <- get_member params "mediaId" ;;
  if negb (truthy_value mediaId) then
    throw_new_Error "Media ID is required for save_media operation"
  else
    b64 <- get_member params "base64_content" ;;
    base64Content <- (if truthy_value b64 then ret b64 else get_member params "content") ;;
    if negb (truthy_value base64Content) then
      throw_new_Error "Content (base64 encoded) is required for save_media operation"
    else
      media <- get_member params "mediaId" ;;
      overwrite <- get_member params "overwrite" ;;
      client_call "core.saveMedia"
        (VObject [("media", media); ("base64", base64Content);
                  ("overwrite", or_else overwrite (VBool false))]).

Definition deleteMedia (params : value) : Js value :=
  mediaId <- get_member params "mediaId" ;;
  if negb (truthy_value mediaId) then
    throw_new_Error "Media ID is required for delete_media operation"
  else
    media <- get_member params "mediaId" ;;
    client_call "core.deleteMedia" (VObject [("media", media)]).

End Operations.

Section Plugin.

Variable fetch : string → Request → FetchOutcome.

(** [manage_dokuwiki(params, userSettings)].  [probe_time] and [call_time]
    are what the clock reads when the connection test and the operation's
    own request are sent.  The [catch] is, statement for statement, the one
    of [client.call]. *)
Definition manage_dokuwiki (probe_time call_time : Z) (params : value)
    (userSettings : option PluginSettings) : Js value :=
  try_catch
    (missing <- (if negb (truthy_value params) then ret true
                 else op <- get_member params "operation" ;;
                      ret (negb (truthy_value op))) ;;
     if (missing : bool) then throw_new_Error "Operation parameter is required"
     else
       client <- createApiClient fetch probe_time (credentials <$> userSettings) true ;;
       let client_call := call (jsonRpcCall fetch call_time client) in
       operation <- get_member params "operation" ;;
       if is_string operation "get_page" then getPage client_call params
       else if is_string operation "save_page" then savePage client_call params
       else if is_string operation "append_page" then appendPage client_call params
       else if is_string operation "list_pages" then listPages client_call params userSettings
       else if is_string operation "search_pages" then searchPages client_call params
       else if is_string operation "get_page_info" then getPageInfo client_call params
       else if is_string operation "get_page_history" then getPageHistory client_call params
       else if is_string operation "list_media" then listMedia client_call params userSettings
       else if is_string operation "get_media" then getMedia client_call params
       else if is_string operation "save_media" then saveMedia client_call params
       else if is_string operation "delete_media" then deleteMedia client_call params
       else
         operation <- get_member params "operation" ;;
         throw_unsupported operation)
    call_catch.

End Plugin.

(** ** Further summaries used in the statements *)

(** The settings from which [getAuthHeaders] produces headers. *)
Definition valid_settings (userSettings : option UserSettings) : bool :=
  match userSettings with
  | None => false
  | Some s =>
      truthy_string (wikiUrl s) && truthy_string (password s)
      && (bool_decide (authMethod s = Some "BASIC_AUTH") && truthy_string (username s)
          || bool_decide (authMethod s = Some "BEARER_TOKEN"))
  end.

(** A freshly made [new Error(msg)]. *)
Definition fresh_Error (msg : string) : ErrorObj := mkError (Some msg) None None.

(** The message of an error raised inside [createApiClient], after its
    [catch]. *)
Definition with_init_context (m : string) : string :=
  if includes m "DokuWiki" then m
  else "Failed to initialize DokuWiki client: " +:+ m.

(** The request that [jsonRpcCall] hands to [fetch]. *)
Definition request_of (this : JsonRpcClient.t) (Date_now : Z) (method : string)
    (params : value) : Request :=
  mkRequest "POST" (JsonRpcClient.headers this)
    (mkRpcRequest "2.0" Date_now method (default_params params)).

(** What it comes to when the error [e], newly in the store, is raised inside
    [jsonRpcCall]'s [try]: the [catch] puts the context before its message
    and throws it again; if [e] has no message, reading it raises a
    [TypeError] instead. *)
Definition raised (method : string) (e : ErrorObj) (h : heap) : completion value * heap :=
  match message e with
  | Some m =>
      (Throw (length h),
       h ++ [mkError (Some (with_context method m)) (code e) (originalMessage e)])
  | None => (Throw (S (length h)), h ++ [e; TypeError_includes])
  end.

(** The outcome of [jsonRpcCall], by what [fetch] answered. *)
Definition jsonRpcCall_outcome (method : string) (answer : FetchOutcome) (h : heap)
    : completion value * heap :=
  match answer with
  | FetchRejected e => raised method e h
  | FetchResolved response =>
      if ok response then
        match json response with
        | JsonRejected e => raised method e h
        | JsonParsed parsed =>
            match error parsed with
            | ErrorObject eo =>
                raised method (mkError (Some (default "" (Rpc.message eo))) (Rpc.code eo) None) h
            | ErrorAbsent | ErrorNull => (Normal (result parsed), h)
            end
        end
      else
        raised method
          (fresh_Error ("HTTP error " +:+ ofNumber (status response) +:+ ": "
                        +:+ text response)) h
  end.

(** The headers that [getAuthHeaders] builds from valid settings, and the
    message of the error it throws for others. *)
Definition auth_headers (s : UserSettings) : gmap string string :=
  if bool_decide (authMethod s = Some "BASIC_AUTH")
  then {[ "Authorization" :=
            "Basic " +:+ btoa (toString (username s) +:+ ":" +:+ toString (password s));
          "Content-Type" := "application/json" ]}
  else {[ "Authorization" := "Bearer " +:+ toString (password s);
          "Content-Type" := "application/json" ]}.

Definition validation_message (userSettings : option UserSettings) : string :=
  match userSettings with
  | None => "User settings are required"
  | Some s =>
      if negb (truthy_string (wikiUrl s)) then "DokuWiki URL is required in settings"
      else if negb (truthy_string (authMethod s)) then
        "Authentication method is required in settings"
      else if negb (truthy_string (password s)) then
        "Password/Token is required in settings"
      else if bool_decide (authMethod s = Some "BASIC_AUTH") then
        "Username is required for Basic Authentication"
      else
        "Unsupported authentication method: " +:+ toString (authMethod s)
        +:+ ". Use BASIC_AUTH or BEARER_TOKEN."
  end.

(** The object raised when [endsWith] is called on [undefined]. *)
Definition TypeError_endsWith : ErrorObj :=
  fresh_Error "Cannot read properties of undefined (reading 'endsWith')".

(** The request of the connection test. *)
Definition probe_request (this : JsonRpcClient.t) (Date_now : Z) : Request :=
  request_of this Date_now "core.getWikiTitle" VUndefined.

(** The value of [params.key] for an object with the given members. *)
Definition member (members : list (string * value)) (key : string) : value :=
  default VUndefined (last_member members key).

(** Whether [params] passes the test [!params || !params.operation], and
    whether an operation name is one that [manage_dokuwiki] routes. *)
Definition has_operation (params : value) : bool :=
  match params with
  | VObject members => truthy_value (member members "operation")
  | _ => false
  end.

Definition known_operation (operation : value) : bool :=
  existsb (is_string operation)
    ["get_page"; "save_page"; "append_page"; "list_pages"; "search_pages";
     "get_page_info"; "get_page_history"; "list_media"; "get_media"; "save_media";
     "delete_media"].

(** ** Facts about the string primitives *)

Lemma append_cons (c : ascii) (s t : string) :
  String c s +:+ t = String c (s +:+ t).
Proof. reflexivity. Qed.

Lemma append_nil_r (s : string) : s +:+ "" = s.
Proof.
  induction s as [|c s IH]; [reflexivity|]. by rewrite append_cons, IH.
Qed.

Lemma append_assoc (s t u : string) : (s +:+ t) +:+ u = s +:+ (t +:+ u).
Proof.
  induction s as [|c s IH]; [reflexivity|]. by rewrite !append_cons, IH.
Qed.

Lemma startsWith_spec (s t : string) :
  startsWith s t = true ↔ ∃ r, s = t +:+ r.
Proof.
  revert s. induction t as [|c t IH]; intros s; cbn.
  - split; [by exists s|done].
  - destruct s as [|d s].
    + split; [done|]. intros [r Hr]. discriminate.
    + destruct (Ascii.eqb_spec c d) as [->|Hne].
      * rewrite IH. split; intros [r Hr]; exists r.
        -- by rewrite Hr.
        -- by injection Hr.
      * split; [done|]. intros [r Hr]. injection Hr as Hd _. congruence.
Qed.

Lemma includes_spec (s t : string) :
  includes s t = true ↔ ∃ p r, s = p +:+ (t +:+ r).
Proof.
  induction s as [|d s IH]; cbn [includes].
  - rewrite orb_false_r, startsWith_spec. split.
    + intros [r Hr]. by exists "", r.
    + intros [[|c p] [r Hr]]; [by exists r|discriminate].
  - rewrite orb_true_iff, startsWith_spec, IH. split.
    + intros [[r Hr]|(p & r & Hr)].
      * by exists "", r.
      * exists (String d p), r. by rewrite Hr.
    + intros ([|c p] & r & Hr).
      * left. by exists r.
      * right. exists p, r. by injection Hr.
Qed.

Lemma endsWith_spec (s t : string) :
  endsWith s t = true ↔ ∃ p, s = p +:+ t.
Proof.
  induction s as [|d s IH]; cbn [endsWith].
  - rewrite orb_false_r, String.eqb_eq. split.
    + intros <-. by exists "".
    + intros [[|c p] Hp]; [done|discriminate].
  - rewrite orb_true_iff, String.eqb_eq, IH. split.
    + intros [<-|[p Hp]]; [by exists ""|].
      exists (String d p). by rewrite Hp.
    + intros [[|c p] Hp]; [by left|].
      right. exists p. by injection Hp.
Qed.

Lemma includes_append_r (s t u : string) :
  includes s t = true → includes (s +:+ u) t = true.
Proof.
  rewrite !includes_spec. intros (p & r & ->).
  exists p, (r +:+ u). by rewrite !append_assoc.
Qed.

(** ** Running store operations *)

Lemma lookup_old (h : heap) (x : ErrorObj) (r : loc) (e : ErrorObj) :
  h !! r = Some e → (h ++ [x]) !! r = Some e.
Proof. apply lookup_app_l_Some. Qed.

Lemma lookup_new (h : heap) (x : ErrorObj) : (h ++ [x]) !! length h = Some x.
Proof. by rewrite list_lookup_middle. Qed.

Lemma insert_new (h : heap) (x y : ErrorObj) :
  <[length h := y]> (h ++ [x]) = h ++ [y].
Proof.
  rewrite insert_app_r_alt by lia. by rewrite Nat.sub_diag.
Qed.


Ltac run Hr :=
  repeat first
    [ rewrite Hr
    | rewrite (lookup_old _ _ _ _ Hr)
    | rewrite lookup_new
    | rewrite insert_new
    | progress cbn [message code originalMessage] ].

(** ** errorHandler.js: what the two functions compute *)

Lemma handleApiError_run (h : heap) (error : loc) (e : ErrorObj) :
  h !! error = Some e →
  handleApiError error h =
    if truthy_number (code e)
    then Some (Normal (length h), h ++ [enhanced e])
    else Some (Normal error, h).
Proof.
  intros Hr.
  unfold handleApiError, get_code, get_message, get_originalMessage, call_includes,
    set_code, set_message, set_originalMessage, new_Error, update, read, bind, ret.
  run Hr.
  destruct (truthy_number (code e)); cbn [negb]; [|done].
  run Hr.
  unfold enhanced, enhanced_message.
  destruct (truthy_string (ERROR_MESSAGES_at (code e))); run Hr; [|done].
  destruct (truthy_string (originalMessage e)) eqn:Horig; run Hr; cbn [andb]; [|done].
  destruct (includes _ _); cbn [negb]; run Hr; done.
Qed.

Lemma getRecoverySuggestion_falsy (h : heap) (error : loc) (e : ErrorObj) :
  h !! error = Some e →
  truthy_number (code e) = false →
  getRecoverySuggestion error h = Some (Normal None, h).
Proof.
  intros Hr Hc. unfold getRecoverySuggestion, read, bind, ret. rewrite Hr.
  destruct (code e) as [c|]; [|done].
  cbn in Hc. apply negb_false_iff in Hc. by rewrite Hc.
Qed.

(** The suggestion chosen once the authentication test is settled. *)
Lemma getRecoverySuggestion_string (h : heap) (error : loc) (e : ErrorObj) (c : Z) (m : string) :
  h !! error = Some e →
  code e = Some c → c ≠ 0 →
  message e = Some m →
  getRecoverySuggestion error h = Some (Normal (suggestion c m), h).
Proof.
  intros Hr Hc Hc0 Hm.
  unfold getRecoverySuggestion, suggestion, call_includes, read, bind, ret.
  rewrite Hr, Hc, Hm.
  apply Z.eqb_neq in Hc0. rewrite Hc0.
  destruct (c =? 401); cbn [orb]; [done|].
  destruct (includes m _); [done|].
  repeat (match goal with |- context [if ?b then _ else _] => destruct b end; try done).
Qed.

Lemma getRecoverySuggestion_no_message (h : heap) (error : loc) (e : ErrorObj) (c : Z) :
  h !! error = Some e →
  code e = Some c → c ≠ 0 → c ≠ 401 →
  message e = None →
  getRecoverySuggestion error h = Some (Throw (length h), h ++ [TypeError_includes]).
Proof.
  intros Hr Hc Hc0 Hc401 Hm.
  unfold getRecoverySuggestion, call_includes, throw_TypeError, new_Error, throw, read, bind, ret.
  rewrite Hr, Hc, Hm.
  apply Z.eqb_neq in Hc0, Hc401. by rewrite Hc0, Hc401.
Qed.

Lemma getRecoverySuggestion_401 (h : heap) (error : loc) (e : ErrorObj) :
  h !! error = Some e →
  code e = Some 401 →
  getRecoverySuggestion error h = Some (Normal (Some AUTH_SUGGESTION), h).
Proof.
  intros Hr Hc. unfold getRecoverySuggestion, read, bind, ret. by rewrite Hr, Hc.
Qed.

Lemma ERROR_MESSAGES_truthy (c : Z) (d : string) :
  ERROR_MESSAGES !! c = Some d → truthy d = true.
Proof.
  assert (map_Forall (λ _ d, truthy d = true) ERROR_MESSAGES) as Hall.
  { apply map_Forall_to_list. unfold ERROR_MESSAGES.
    rewrite map_to_list_to_map.
    - repeat (apply Forall_cons; split; [reflexivity|]). apply Forall_nil_2.
    - by apply (bool_decide_unpack _); vm_compute. }
  apply Hall.
Qed.

Lemma truthy_number_Some (c : Z) : c ≠ 0 → truthy_number (Some c) = true.
Proof. intros Hc. cbn. by apply negb_true_iff, Z.eqb_neq. Qed.

Lemma truthy_number_inv (v : option Z) :
  truthy_number v = true → ∃ c, v = Some c ∧ c ≠ 0.
Proof.
  destruct v as [c|]; [|done]. cbn. intros Hc%negb_true_iff%Z.eqb_neq. eauto.
Qed.

(** The handler of [client.call]'s [catch], run on an allocated error. *)
Lemma call_catch_run (h : heap) (error : loc) (e : ErrorObj) :
  h !! error = Some e →
  call_catch error h =
    match code e with
    | Some c =>
        if c =? 0 then Some (Throw error, h)
        else
          Some (Throw (length h),
                h ++ [mkError
                        (Some (with_suggestion (enhanced_message e)
                                 (suggestion c (enhanced_message e))))
                        (code e) (message e)])
    | None => Some (Throw error, h)
    end.
Proof.
  intros Hr. unfold call_catch, bind at 1.
  rewrite (handleApiError_run _ _ _ Hr).
  destruct (code e) as [c|] eqn:Hc; cbn [truthy_number].
  - destruct (Z.eqb_spec c 0) as [->|Hc0]; cbn [negb].
    + unfold bind at 1.
      rewrite (getRecoverySuggestion_falsy _ _ _ Hr) by by rewrite Hc.
      done.
    + unfold bind at 1.
      rewrite (getRecoverySuggestion_string (h ++ [enhanced e]) (length h)
                 (enhanced e) c (enhanced_message e))
        by (done || apply lookup_new).
      unfold with_suggestion, get_message, set_message, update, read, bind, ret, throw.
      destruct (truthy_string _).
      * rewrite !lookup_new, insert_new. cbn. by rewrite Hc.
      * unfold enhanced. by rewrite Hc.
  - unfold bind at 1.
    rewrite (getRecoverySuggestion_falsy _ _ _ Hr) by by rewrite Hc.
    done.
Qed.

(** ** Error enrichment *)

(** The error of the repository's test "should preserve original technical
    message": nothing is appended to the description. *)
Example handleApiError_technical_database_error :
  let error := mkError (Some "Technical database error") (Some 500) None in
  handleApiError 0%nat [error] =
    Some (Normal 1%nat,
          [error;
           mkError (Some "Server error occurred. Please try again later (Code: 500)")
             (Some 500) (Some "Technical database error")]).
Proof. by vm_compute. Qed.

(** C1, as stated, fails twice over.  Code 0 is in the table, but an error
    with code 0 comes back as it was.  And for code 500 the technical
    message, although non-empty and not contained in the new message, is not
    appended, because the append looks at the input's [originalMessage]. *)
Lemma C1_counterexample_zero_and_append :
  let success := mkError (Some "Nothing went wrong") (Some 0) None in
  let failure := mkError (Some "Technical database error") (Some 500) None in
  (ERROR_MESSAGES !! 0 = Some "Success" ∧
   ¬ ∃ (r' : loc) (h' : heap) (e' : ErrorObj),
       handleApiError 0%nat [success] = Some (Normal r', h') ∧ h' !! r' = Some e' ∧
       message e' = Some (specified_message "Success" 0 "Nothing went wrong")) ∧
  (ERROR_MESSAGES !! 500 = Some "Server error occurred. Please try again later" ∧
   ¬ ∃ (r' : loc) (h' : heap) (e' : ErrorObj),
       handleApiError 0%nat [failure] = Some (Normal r', h') ∧ h' !! r' = Some e' ∧
       message e' = Some (specified_message "Server error occurred. Please try again later"
                            500 "Technical database error")).
Proof.
  intros success failure.
  split; (split; [by vm_compute|]); intros (r' & h' & e' & Hrun & He' & Hmsg);
    vm_compute in Hrun; simplify_eq; cbn in He'; simplify_eq;
    vm_compute in Hmsg; simplify_eq.
Qed.

(** C1 (amended). For every input error carrying a non-zero code found in
    the table, [handleApiError] produces an error whose message begins with
    "<description> (Code: <code>)". *)
Theorem C1_handleApiError_message_begins_with_description
    (h : heap) (error : loc) (e : ErrorObj) (c : Z) (d : string) :
  h !! error = Some e →
  code e = Some c → c ≠ 0 →
  ERROR_MESSAGES !! c = Some d →
  ∃ (r' : loc) (h' : heap) (e' : ErrorObj) (rest : string),
    handleApiError error h = Some (Normal r', h') ∧ h' !! r' = Some e' ∧
    message e' = Some ((d +:+ " (Code: " +:+ ofNumber c +:+ ")") +:+ rest).
Proof.
  intros Hr Hc Hc0 Hd.
  rewrite (handleApiError_run _ _ _ Hr), Hc, truthy_number_Some by done.
  unfold enhanced at 1, enhanced_message. rewrite Hc.
  cbn [ERROR_MESSAGES_at from_option]. rewrite Hd.
  cbn [truthy_string toString default from_option id].
  rewrite (ERROR_MESSAGES_truthy _ _ Hd).
  destruct (_ && _).
  - eexists (length h), _, _, (" - " +:+ toString (originalMessage e)).
    split; [done|]. split; [apply lookup_new|]. done.
  - eexists (length h), _, _, "".
    split; [done|]. split; [apply lookup_new|]. cbn [message].
    by rewrite append_nil_r.
Qed.

Lemma C1_handleApiError_message_begins_with_description_witness :
  ∃ (r' : loc) (h' : heap) (e' : ErrorObj) (rest : string),
    handleApiError 0%nat [mkError (Some "Technical error message") (Some 121) None]
      = Some (Normal r', h') ∧ h' !! r' = Some e' ∧
    message e' = Some (("The requested page (revision) does not exist"
                        +:+ " (Code: " +:+ ofNumber 121 +:+ ")") +:+ rest).
Proof.
  apply (C1_handleApiError_message_begins_with_description
           [mkError (Some "Technical error message") (Some 121) None] 0%nat
           (mkError (Some "Technical error message") (Some 121) None) 121
           "The requested page (revision) does not exist");
    [reflexivity | reflexivity | lia | vm_compute; reflexivity].
Defined.

(** The rule in general: the append is decided by the input's
    [originalMessage]; an error that has none keeps the bare description,
    whatever its own message is. *)
Lemma handleApiError_without_originalMessage
    (h : heap) (error : loc) (e : ErrorObj) (c : Z) (d : string) :
  h !! error = Some e →
  code e = Some c → c ≠ 0 →
  ERROR_MESSAGES !! c = Some d →
  originalMessage e = None →
  handleApiError error h =
    Some (Normal (length h),
          h ++ [mkError (Some (d +:+ " (Code: " +:+ ofNumber c +:+ ")")) (Some c) (message e)]).
Proof.
  intros Hr Hc Hc0 Hd Horig.
  rewrite (handleApiError_run _ _ _ Hr), Hc, truthy_number_Some by done.
  unfold enhanced, enhanced_message. rewrite Hc, Horig.
  cbn [ERROR_MESSAGES_at from_option]. rewrite Hd.
  cbn [truthy_string toString default from_option id andb].
  by rewrite (ERROR_MESSAGES_truthy _ _ Hd).
Qed.

(** C2, as stated, fails for code 0: it is in the table ("Success"), yet
    the error comes back as it was, with a message that names neither the
    description nor the code. *)
Lemma C2_counterexample_code_zero :
  let error := mkError (Some "Nothing went wrong") (Some 0) None in
  ERROR_MESSAGES !! 0 = Some "Success" ∧
  ¬ ∃ (r' : loc) (h' : heap) (e' : ErrorObj) (msg : string),
      handleApiError 0%nat [error] = Some (Normal r', h') ∧
      h' !! r' = Some e' ∧ message e' = Some msg ∧
      includes msg "Success" = true ∧ includes msg "(Code: 0)" = true.
Proof.
  split; [by vm_compute|].
  intros (r' & h' & e' & msg & Hrun & He' & Hmsg & Hd & _).
  vm_compute in Hrun. simplify_eq.
  cbn in He'. simplify_eq. cbn in Hmsg. simplify_eq.
Qed.

(** C2 (amended). For every error whose code is a non-zero code of the
    table, [handleApiError] returns an error whose message contains both the
    table's description of that code and the text "(Code: <code>)". *)
Theorem C2_handleApiError_describes_table_codes
    (h : heap) (error : loc) (e : ErrorObj) (c : Z) (d : string) :
  h !! error = Some e →
  code e = Some c → c ≠ 0 →
  ERROR_MESSAGES !! c = Some d →
  ∃ (r' : loc) (h' : heap) (e' : ErrorObj) (msg : string),
    handleApiError error h = Some (Normal r', h') ∧
    h' !! r' = Some e' ∧ message e' = Some msg ∧
    includes msg d = true ∧
    includes msg ("(Code: " +:+ ofNumber c +:+ ")") = true.
Proof.
  intros Hr Hc Hc0 Hd.
  exists (length h), (h ++ [enhanced e]), (enhanced e), (enhanced_message e).
  rewrite (handleApiError_run _ _ _ Hr), Hc, truthy_number_Some by done.
  split; [done|]. split; [apply lookup_new|]. split; [done|].
  unfold enhanced_message. rewrite Hc. cbn [ERROR_MESSAGES_at from_option].
  rewrite Hd. cbn [truthy_string toString default from_option id].
  rewrite (ERROR_MESSAGES_truthy _ _ Hd).
  assert (includes (d +:+ " (Code: " +:+ ofNumber c +:+ ")") d = true) as H1.
  { apply includes_spec. by exists "", (" (Code: " +:+ ofNumber c +:+ ")"). }
  assert (includes (d +:+ " (Code: " +:+ ofNumber c +:+ ")")
            ("(Code: " +:+ ofNumber c +:+ ")") = true) as H2.
  { apply includes_spec. exists (d +:+ " "), "".
    by rewrite append_nil_r, !append_assoc. }
  destruct (_ && _); [split; by apply includes_append_r|done].
Qed.

Lemma C2_handleApiError_describes_table_codes_witness :
  ∃ (r' : loc) (h' : heap) (e' : ErrorObj) (msg : string),
    handleApiError 0%nat [mkError (Some "Technical error message") (Some 121) None]
      = Some (Normal r', h') ∧
    h' !! r' = Some e' ∧ message e' = Some msg ∧
    includes msg "The requested page (revision) does not exist" = true ∧
    includes msg ("(Code: " +:+ ofNumber 121 +:+ ")") = true.
Proof.
  apply (C2_handleApiError_describes_table_codes
           [mkError (Some "Technical error message") (Some 121) None] 0%nat
           (mkError (Some "Technical error message") (Some 121) None) 121
           "The requested page (revision) does not exist");
    [reflexivity | reflexivity | lia | vm_compute; reflexivity].
Defined.

(** C3, as stated, fails: a code outside every listed set still gets the
    authentication suggestion when the message contains "Authentication
    failed". *)
Lemma C3_counterexample_auth_phrase :
  let error := mkError (Some "Authentication failed") (Some 200) None in
  ¬ (getRecoverySuggestion 0%nat [error] = Some (Normal None, [error])
     ↔ code error = None ∨ ∃ c, code error = Some c ∧ listed_code c = false).
Proof.
  intros error [_ Hnull].
  assert (getRecoverySuggestion 0%nat [error] = Some (Normal None, [error])) as Hrun.
  { apply Hnull. right. by exists 200. }
  by vm_compute in Hrun.
Qed.

(** C3 (amended). [getRecoverySuggestion] returns [null] if and only if the
    code is absent or zero, or the code lies outside all of the listed exact
    matches and ranges and the message is a string that does not contain
    "Authentication failed". *)
Theorem C3_getRecoverySuggestion_null_iff (h : heap) (error : loc) (e : ErrorObj) :
  h !! error = Some e →
  getRecoverySuggestion error h = Some (Normal None, h)
  ↔ code e = None ∨ code e = Some 0
    ∨ ∃ (c : Z) (m : string),
        code e = Some c ∧ listed_code c = false
        ∧ message e = Some m ∧ includes m "Authentication failed" = false.
Proof.
  intros Hr.
  destruct (code e) as [c|] eqn:Hc.
  2: { rewrite (getRecoverySuggestion_falsy _ _ _ Hr) by by rewrite Hc. naive_solver. }
  destruct (Z.eq_dec c 0) as [->|Hc0].
  { rewrite (getRecoverySuggestion_falsy _ _ _ Hr) by by rewrite Hc. naive_solver. }
  destruct (message e) as [m|] eqn:Hm.
  - rewrite (getRecoverySuggestion_string _ _ _ _ _ Hr Hc Hc0 Hm).
    unfold suggestion, listed_code. split.
    + intros Hnone. right. right. exists c, m.
      destruct (c =? 401), (includes m _), (c =? 403), (c =? 111), (c =? 212),
        ((1000 <=? c) && (c <? 2000)), (c =? 133), ((500 <=? c) && (c <? 600));
        by simplify_eq/=.
    + intros [?|[?|(c' & m' & ? & Hl & ? & Hi)]]; simplify_eq.
      rewrite Hi.
      destruct (c' =? 401), (c' =? 403), (c' =? 111), (c' =? 212),
        ((1000 <=? c') && (c' <? 2000)), (c' =? 133), ((500 <=? c') && (c' <? 600));
        by simplify_eq/=.
  - destruct (Z.eq_dec c 401) as [->|Hc401].
    + rewrite (getRecoverySuggestion_401 _ _ _ Hr Hc). split; [done|].
      intros [?|[?|(c' & m' & ? & Hl & ? & Hi)]]; simplify_eq.
    + rewrite (getRecoverySuggestion_no_message _ _ _ _ Hr Hc Hc0 Hc401 Hm).
      split; [done|]. intros [?|[?|(c' & m' & ? & Hl & ? & Hi)]]; simplify_eq.
Qed.

Lemma C3_getRecoverySuggestion_null_iff_witness :
  let error := mkError (Some "Unknown error") (Some 9999) None in
  getRecoverySuggestion 0%nat [error] = Some (Normal None, [error])
  ↔ code error = None ∨ code error = Some 0
    ∨ ∃ (c : Z) (m : string),
        code error = Some c ∧ listed_code c = false
        ∧ message error = Some m ∧ includes m "Authentication failed" = false.
Proof.
  intros error.
  apply (C3_getRecoverySuggestion_null_iff [error] 0%nat error). reflexivity.
Defined.

(** C8, as stated, fails: for an error with a code and no message,
    [getRecoverySuggestion] raises a [TypeError] instead of returning. *)
Lemma C8_counterexample_no_message :
  let error := mkError None (Some 500) None in
  ¬ ∃ (s : option string) (h' : heap),
      getRecoverySuggestion 0%nat [error] = Some (Normal s, h').
Proof. intros error (s & h' & Hrun). by vm_compute in Hrun. Qed.

(** C8 (amended). For every input error value, whatever members it has,
    [handleApiError] returns an error value without raising: the input
    itself when the code is absent or zero, and otherwise an error with the
    input's code which, when the code has no table entry, also has the
    input's message (the empty string if it had none).
    [getRecoverySuggestion] returns a string or [null] without raising, and
    leaves the store as it was, for every error whose message is a string,
    or whose code is absent, zero or 401. *)
Theorem C8_enrichment_returns (h : heap) (error : loc) (e : ErrorObj) :
  h !! error = Some e →
  (∃ (r' : loc) (h' : heap) (e' : ErrorObj),
     handleApiError error h = Some (Normal r', h') ∧ h' !! r' = Some e' ∧
     code e' = code e ∧
     (truthy_number (code e) = false → r' = error ∧ h' = h) ∧
     (truthy_number (code e) = true → ERROR_MESSAGES_at (code e) = None →
      message e' = Some (default "" (message e))))
  ∧ (is_Some (message e) ∨ truthy_number (code e) = false ∨ code e = Some 401 →
     ∃ s : option string, getRecoverySuggestion error h = Some (Normal s, h)).
Proof.
  intros Hr. split.
  - rewrite (handleApiError_run _ _ _ Hr).
    destruct (truthy_number (code e)) eqn:Hc.
    + exists (length h), (h ++ [enhanced e]), (enhanced e).
      split; [done|]. split; [apply lookup_new|]. split; [done|]. split; [done|].
      unfold enhanced, enhanced_message. cbn [message]. by intros _ ->.
    + by exists error, h, e.
  - intros Hcases.
    destruct (truthy_number (code e)) eqn:Htruthy.
    2: { exists None. by apply getRecoverySuggestion_falsy with e. }
    apply truthy_number_inv in Htruthy as (c & Hc & Hc0).
    destruct (Z.eq_dec c 401) as [->|Hc401].
    { exists (Some AUTH_SUGGESTION). by apply getRecoverySuggestion_401 with e. }
    destruct Hcases as [[m Hm]|[Hf|H401]].
    + exists (suggestion c m). by apply getRecoverySuggestion_string with e.
    + done.
    + congruence.
Qed.

Lemma C8_enrichment_returns_witness :
  let error := mkError (Some "Unknown error") (Some 9999) None in
  (∃ (r' : loc) (h' : heap) (e' : ErrorObj),
     handleApiError 0%nat [error] = Some (Normal r', h') ∧ h' !! r' = Some e' ∧
     code e' = code error ∧
     (truthy_number (code error) = false → r' = 0%nat ∧ h' = [error]) ∧
     (truthy_number (code error) = true → ERROR_MESSAGES_at (code error) = None →
      message e' = Some (default "" (message error))))
  ∧ (is_Some (message error) ∨ truthy_number (code error) = false
     ∨ code error = Some 401 →
     ∃ s : option string,
       getRecoverySuggestion 0%nat [error] = Some (Normal s, [error])).
Proof.
  intros error. apply (C8_enrichment_returns [error] 0%nat error). reflexivity.
Defined.



(** ** The facade client *)

Lemma call_throw (transport : string → value → Js value) (method : string)
    (params : value) (h0 h : heap) (error : loc) :
  transport method (default_params params) h0 = Some (Throw error, h) →
  call transport method params h0 = call_catch error h.
Proof. intros Ht. unfold call, try_catch. by rewrite Ht. Qed.

(** The shape shared by [pageExists] and [mediaExists]. *)
Lemma exists_check_try_catch (notFound : Z) (m : Js value) (h0 h1 : heap)
    (out : completion value) :
  m h0 = Some (out, h1) →
  exists_check notFound out h1
    (try_catch (info <- m ;; ret true)
       (λ error, c <- get_code error ;;
                 if strict_eq c notFound then ret false else throw error) h0).
Proof.
  intros Hm. unfold try_catch, bind at 1. rewrite Hm.
  destruct out as [v|r]; unfold exists_check.
  - cbn. split; [done|]. split; [done|]. split; [done|].
    split; [done|]. by intros (r & e & ? & _).
  - unfold get_code, read, bind, ret, throw.
    destruct (h1 !! r) as [e|] eqn:Hr.
    + destruct (code e) as [c|] eqn:Hc; cbn [strict_eq].
      * destruct (Z.eqb_spec c notFound) as [->|Hne].
        -- split; [done|]. split; [done|]. split; [intros; simplify_eq|].
           split; [|done]. intros _. by exists r, e.
        -- split; [done|]. split; [intros; simplify_eq|]. split; [intros; by simplify_eq|].
           split; [done|]. intros (? & ? & ? & ? & ?). simplify_eq.
      * split; [done|]. split; [intros; simplify_eq|]. split; [intros; by simplify_eq|].
        split; [done|]. intros (? & ? & ? & ? & ?). simplify_eq.
    + split; [done|]. split; [intros; simplify_eq|]. split; [intros; simplify_eq|].
      split; [done|]. intros (? & ? & ? & ? & ?). simplify_eq.
Qed.

(** C6. [pageExists] returns [false] exactly when the page-info call it
    wraps fails with code 121, returns [true] on any successful result, and
    raises any other failure (other code, or no code) again unchanged;
    [mediaExists] does the same with the media-info call and code 221. *)
Theorem C6_pageExists_mediaExists (transport : string → value → Js value)
    (pageId mediaId : string) (h0 hp hm : heap) (page_out media_out : completion value) :
  call transport "core.getPageInfo" (VObject [("page", VString pageId)]) h0
    = Some (page_out, hp) →
  call transport "core.getMediaInfo" (VObject [("media", VString mediaId)]) h0
    = Some (media_out, hm) →
  exists_check 121 page_out hp (pageExists transport pageId h0) ∧
  exists_check 221 media_out hm (mediaExists transport mediaId h0).
Proof.
  intros Hp Hm. split.
  - by apply (exists_check_try_catch 121 _ h0 hp page_out).
  - by apply (exists_check_try_catch 221 _ h0 hm media_out).
Qed.

Lemma C6_pageExists_mediaExists_witness :
  let not_found := mkError (Some "Page not found") (Some 121) None in
  let enriched :=
    mkError (Some "The requested page (revision) does not exist (Code: 121)")
      (Some 121) (Some "Page not found") in
  exists_check 121 (Throw 1%nat) [not_found; enriched]
    (pageExists (rejecting not_found) "test:nonexistent" []) ∧
  exists_check 221 (Throw 1%nat) [not_found; enriched]
    (mediaExists (rejecting not_found) "test:image.jpg" []).
Proof.
  intros not_found enriched.
  apply (C6_pageExists_mediaExists (rejecting not_found)
           "test:nonexistent" "test:image.jpg" []); vm_compute; reflexivity.
Defined.

(** C10. For an error with a truthy code, the error that [handleApiError]
    produces has the input's code and has the input's message as its
    [originalMessage]; hence what [client.call] throws carries the code that
    the transport raised, and [pageExists] and [mediaExists] decide on that
    very code (121 and 221). *)
Theorem C10_code_survives_enrichment (transport : string → value → Js value)
    (method : string) (params : value) (pageId mediaId : string)
    (h0 h : heap) (error : loc) (e : ErrorObj) (c : Z) :
  h !! error = Some e →
  code e = Some c → c ≠ 0 →
  (∃ (r' : loc) (h' : heap) (e' : ErrorObj),
     handleApiError error h = Some (Normal r', h') ∧ h' !! r' = Some e' ∧
     code e' = Some c ∧ originalMessage e' = message e) ∧
  (transport method (default_params params) h0 = Some (Throw error, h) →
   ∃ (r' : loc) (h' : heap) (e' : ErrorObj),
     call transport method params h0 = Some (Throw r', h') ∧ h' !! r' = Some e' ∧
     code e' = Some c) ∧
  (transport "core.getPageInfo" (VObject [("page", VString pageId)]) h0
     = Some (Throw error, h) →
   ∃ (r' : loc) (h' : heap),
     pageExists transport pageId h0
       = Some (if c =? 121 then Normal false else Throw r', h')) ∧
  (transport "core.getMediaInfo" (VObject [("media", VString mediaId)]) h0
     = Some (Throw error, h) →
   ∃ (r' : loc) (h' : heap),
     mediaExists transport mediaId h0
       = Some (if c =? 221 then Normal false else Throw r', h')).
Proof.
  intros Hr Hc Hc0.
  assert (∀ m p, transport m (default_params p) h0 = Some (Throw error, h) →
          ∃ (r' : loc) (h' : heap) (e' : ErrorObj),
            call transport m p h0 = Some (Throw r', h') ∧ h' !! r' = Some e' ∧
            code e' = Some c) as Hcall.
  { intros m p Ht. rewrite (call_throw _ _ _ _ _ _ Ht), (call_catch_run _ _ _ Hr), Hc.
    apply Z.eqb_neq in Hc0. rewrite Hc0.
    eexists _, _, _. split; [done|]. split; [apply lookup_new|]. done. }
  assert (∀ notFound m p, transport m (default_params p) h0 = Some (Throw error, h) →
          ∃ (r' : loc) (h' : heap),
            try_catch (info <- call transport m p ;; ret true)
              (λ error, c <- get_code error ;;
                        if strict_eq c notFound then ret false else throw error) h0
            = Some (if c =? notFound then Normal false else Throw r', h')) as Hcheck.
  { intros notFound m p Ht.
    destruct (Hcall m p Ht) as (r' & h' & e' & Hrun & He' & Hc').
    exists r', h'.
    destruct (exists_check_try_catch notFound _ _ _ _ Hrun) as (_ & Hfalse & Hthrow & _).
    destruct (Z.eqb_spec c notFound) as [->|Hne].
    - by apply (Hfalse r' e').
    - apply (Hthrow r' e'); [done|done|]. rewrite Hc'. congruence. }
  split; [|split; [|split]].
  - exists (length h), (h ++ [enhanced e]), (enhanced e).
    rewrite (handleApiError_run _ _ _ Hr), Hc, truthy_number_Some by done.
    split; [done|]. split; [apply lookup_new|]. done.
  - apply Hcall.
  - apply (Hcheck 121 "core.getPageInfo" (VObject [("page", VString pageId)])).
  - apply (Hcheck 221 "core.getMediaInfo" (VObject [("media", VString mediaId)])).
Qed.

Lemma C10_code_survives_enrichment_witness :
  let not_found := mkError (Some "Media not found") (Some 221) None in
  (∃ (r' : loc) (h' : heap) (e' : ErrorObj),
     handleApiError 0%nat [not_found] = Some (Normal r', h') ∧ h' !! r' = Some e' ∧
     code e' = Some 221 ∧ originalMessage e' = message not_found) ∧
  (rejecting not_found "core.getMediaInfo" (default_params VNull) []
     = Some (Throw 0%nat, [not_found]) →
   ∃ (r' : loc) (h' : heap) (e' : ErrorObj),
     call (rejecting not_found) "core.getMediaInfo" VNull [] = Some (Throw r', h') ∧
     h' !! r' = Some e' ∧ code e' = Some 221) ∧
  (rejecting not_found "core.getPageInfo" (VObject [("page", VString "start")]) []
     = Some (Throw 0%nat, [not_found]) →
   ∃ (r' : loc) (h' : heap),
     pageExists (rejecting not_found) "start" []
       = Some (if 221 =? 121 then Normal false else Throw r', h')) ∧
  (rejecting not_found "core.getMediaInfo" (VObject [("media", VString "logo.png")]) []
     = Some (Throw 0%nat, [not_found]) →
   ∃ (r' : loc) (h' : heap),
     mediaExists (rejecting not_found) "logo.png" []
       = Some (if 221 =? 221 then Normal false else Throw r', h')).
Proof.
  intros not_found.
  apply (C10_code_survives_enrichment (rejecting not_found) "core.getMediaInfo" VNull
           "start" "logo.png" [] [not_found] 0%nat not_found 221);
    [reflexivity | reflexivity | lia].
Defined.

(** ** The transport *)

Lemma with_context_suffix (method m : string) :
  ∃ context : string, with_context method m = context +:+ m.
Proof.
  unfold with_context. destruct (includes m _).
  - by exists "".
  - exists ("DokuWiki API error calling " +:+ method +:+ ": ").
    by rewrite !append_assoc.
Qed.

(** C4. On a response with a success status: when the parsed body has no
    [error] object (the member is missing or [null]) the call returns the
    body's [result] as it is, whatever value that is, and leaves the store
    alone; when the body has an [error] object, whatever its code (0
    included), the call fails with an error that has that object's code and
    its message, the latter behind the transport's calling context unless it
    already names it. *)
Theorem C4_jsonRpcCall_success_status
    (fetch : string → Request → FetchOutcome) (Date_now : Z)
    (this : JsonRpcClient.t) (method : string) (params : value)
    (response : Response) (parsed : RpcResponse) (h : heap) :
  fetch (JsonRpcClient.baseUrl this)
    (mkRequest "POST" (JsonRpcClient.headers this)
       (mkRpcRequest "2.0" Date_now method (default_params params)))
    = FetchResolved response →
  ok response = true →
  json response = JsonParsed parsed →
  match error parsed with
  | ErrorAbsent | ErrorNull =>
      jsonRpcCall fetch Date_now this method params h = Some (Normal (result parsed), h)
  | ErrorObject e =>
      ∃ (thrown : ErrorObj) (context : string),
        jsonRpcCall fetch Date_now this method params h
          = Some (Throw (length h), h ++ [thrown]) ∧
        code thrown = Rpc.code e ∧
        message thrown = Some (with_context method (default "" (Rpc.message e))) ∧
        message thrown = Some (context +:+ default "" (Rpc.message e))
  end.
Proof.
  intros Hfetch Hok Hjson.
  unfold jsonRpcCall, try_catch. rewrite Hfetch, Hok, Hjson. cbn [negb].
  destruct (error parsed) as [| |e]; [done|done|].
  destruct (with_context_suffix method (default "" (Rpc.message e))) as [context Hctx].
  exists (mkError (Some (with_context method (default "" (Rpc.message e)))) (Rpc.code e) None),
    context.
  split; [|by rewrite <- Hctx].
  unfold with_context, new_Error, set_code, get_message, set_message, call_includes,
    update, read, throw, bind, ret.
  rewrite !lookup_new, insert_new. cbn [message code originalMessage].
  rewrite !lookup_new. cbn [message].
  destruct (includes _ _); cbn [negb]; [done|].
  by rewrite !lookup_new, insert_new.
Qed.

Lemma C4_jsonRpcCall_success_status_witness :
  let parsed :=
    mkRpcResponse (VString "ignored")
      (ErrorObject (Rpc.mkErrorObject (Some 0) (Some "Nothing to report"))) in
  let response := mkResponse true 200 "" (JsonParsed parsed) in
  let this := JsonRpcClient.mk "https://wiki.example.com/lib/exe/jsonrpc.php" ∅ in
  ∃ (thrown : ErrorObj) (context : string),
    jsonRpcCall (answering response) 1234567890 this "core.getPage" (VObject []) []
      = Some (Throw 0%nat, [thrown]) ∧
    code thrown = Some 0 ∧
    message thrown = Some (with_context "core.getPage" "Nothing to report") ∧
    message thrown = Some (context +:+ "Nothing to report").
Proof.
  intros parsed response this.
  apply (C4_jsonRpcCall_success_status (answering response) 1234567890 this
           "core.getPage" (VObject []) response parsed []); reflexivity.
Defined.

(** Falsy results are results: [null], the empty string, an empty object
    and an empty array all come back as they are. *)
Example jsonRpcCall_returns_falsy_results :
  let this := JsonRpcClient.mk "https://wiki.example.com/lib/exe/jsonrpc.php" ∅ in
  let reply (v : value) :=
    answering (mkResponse true 200 "" (JsonParsed (mkRpcResponse v ErrorNull))) in
  Forall (λ v, jsonRpcCall (reply v) 0 this "core.getPage" VUndefined []
               = Some (Normal v, []))
    [VNull; VString ""; VObject []; VArray []; VUndefined; VBool false; VNumber 0].
Proof. repeat constructor. Qed.

(** ** Credentials *)

(** C5, as stated, fails: a member that is present but empty counts as
    missing, so Basic settings with an empty user name yield no headers. *)
Lemma C5_counterexample_empty_username :
  let settings :=
    mkSettings (Some "https://wiki.example.com") (Some "BASIC_AUTH")
      (Some "") (Some "password123") in
  ¬ ∃ (headers : gmap string string) (h' : heap),
      getAuthHeaders (Some settings) [] = Some (Normal headers, h').
Proof. intros settings (headers & h' & Hrun). by vm_compute in Hrun. Qed.

(** C5 (amended). For settings whose [wikiUrl], [username] and [password]
    are present and non-empty and whose [authMethod] is BASIC_AUTH,
    [getAuthHeaders] returns exactly the two headers
    [Content-Type: application/json] and
    [Authorization: Basic <base64(username:password)>]; for settings whose
    [wikiUrl] and [password] are present and non-empty and whose
    [authMethod] is BEARER_TOKEN it returns exactly
    [Content-Type: application/json] and [Authorization: Bearer <password>],
    whatever [username] is. *)
Theorem C5_getAuthHeaders_exact_headers
    (h : heap) (url user pass : string) (anyUser : option string) :
  truthy url = true →
  truthy pass = true →
  (truthy user = true →
   getAuthHeaders
     (Some (mkSettings (Some url) (Some "BASIC_AUTH") (Some user) (Some pass))) h
   = Some (Normal {[ "Authorization" := "Basic " +:+ btoa (user +:+ ":" +:+ pass);
                     "Content-Type" := "application/json" ]}, h)) ∧
  getAuthHeaders
    (Some (mkSettings (Some url) (Some "BEARER_TOKEN") anyUser (Some pass))) h
  = Some (Normal {[ "Authorization" := "Bearer " +:+ pass;
                    "Content-Type" := "application/json" ]}, h).
Proof.
  intros Hurl Hpass. unfold getAuthHeaders.
  cbn [wikiUrl authMethod username password truthy_string toString default from_option id].
  rewrite Hurl, Hpass. cbn [negb truthy].
  split; [|done]. intros Huser. rewrite Huser. done.
Qed.

Lemma C5_getAuthHeaders_exact_headers_witness :
  (truthy "user" = true →
   getAuthHeaders
     (Some (mkSettings (Some "https://wiki.example.com") (Some "BASIC_AUTH")
              (Some "user") (Some "password123"))) []
   = Some (Normal {[ "Authorization" := "Basic " +:+ btoa ("user" +:+ ":" +:+ "password123");
                     "Content-Type" := "application/json" ]}, [])) ∧
  getAuthHeaders
    (Some (mkSettings (Some "https://wiki.example.com") (Some "BEARER_TOKEN")
             None (Some "password123"))) []
  = Some (Normal {[ "Authorization" := "Bearer " +:+ "password123";
                    "Content-Type" := "application/json" ]}, []).
Proof.
  apply (C5_getAuthHeaders_exact_headers [] "https://wiki.example.com" "user"
           "password123" None); reflexivity.
Defined.

Example btoa_user_password123 :
  btoa "user:password123" = "dXNlcjpwYXNzd29yZDEyMw==".
Proof. reflexivity. Qed.

Lemma append_length (s t : string) :
  String.length (s +:+ t) = (String.length s + String.length t)%nat.
Proof.
  induction s as [|c s IH]; [reflexivity|]. rewrite append_cons. cbn. by rewrite IH.
Qed.

Lemma append_cancel_r (s s' t : string) : s +:+ t = s' +:+ t → s = s'.
Proof.
  revert s'. induction s as [|c s IH]; intros [|c' s'] Heq.
  - done.
  - apply (f_equal String.length) in Heq.
    rewrite !append_length in Heq. cbn in Heq. lia.
  - apply (f_equal String.length) in Heq.
    rewrite !append_length in Heq. cbn in Heq. lia.
  - rewrite !append_cons in Heq. injection Heq as -> Heq. f_equal. by apply IH.
Qed.

(** Whatever the URL, one slash at most is taken from its end: the endpoint
    is [base/lib/exe/jsonrpc.php], where [base] is [wikiUrl] itself when it
    does not end in a slash and [wikiUrl] without its final slash when it
    does. *)
Lemma baseUrl_strips_one_slash (wikiUrl : string) :
  ∃ base : string,
    (wikiUrl = base ∧ endsWith wikiUrl "/" = false ∨ wikiUrl = base +:+ "/") ∧
    baseUrl wikiUrl = base +:+ "/" +:+ "lib/exe/jsonrpc.php".
Proof.
  unfold baseUrl. destruct (endsWith wikiUrl "/") eqn:Hends.
  - apply endsWith_spec in Hends as [base ->]. exists base.
    split; [by right|]. by rewrite append_assoc.
  - exists wikiUrl. split; [by left|done].
Qed.

(** C7, as stated, fails for a URL that ends in two slashes: only one of
    them is taken off, so the endpoint has two slashes before
    [lib/exe/jsonrpc.php] and is not a slash-free end joined to the path by
    one slash. *)
Lemma C7_counterexample_double_slash :
  baseUrl "https://wiki.example.com//" = "https://wiki.example.com//lib/exe/jsonrpc.php" ∧
  ¬ ∃ base : string,
      endsWith base "/" = false ∧
      baseUrl "https://wiki.example.com//" = base +:+ "/" +:+ "lib/exe/jsonrpc.php".
Proof.
  split; [reflexivity|]. intros (base & Hends & Heq).
  change (baseUrl "https://wiki.example.com//")
    with ("https://wiki.example.com/" +:+ "/lib/exe/jsonrpc.php") in Heq.
  change (base +:+ "/" +:+ "lib/exe/jsonrpc.php")
    with (base +:+ "/lib/exe/jsonrpc.php") in Heq.
  apply append_cancel_r in Heq. subst base. by vm_compute in Hends.
Qed.

(** C7 (amended). For every [wikiUrl] that does not end in two slashes, the
    request endpoint is [wikiUrl] joined to [lib/exe/jsonrpc.php] with
    exactly one separating slash: it is [base/lib/exe/jsonrpc.php] where
    [base] does not end in a slash and is [wikiUrl], or [wikiUrl] without
    its final slash.  In particular "https://wiki.example.com/" and
    "https://wiki.example.com" both yield
    "https://wiki.example.com/lib/exe/jsonrpc.php". *)
Theorem C7_baseUrl_exactly_one_slash (wikiUrl : string) :
  endsWith wikiUrl "//" = false →
  (∃ base : string,
     endsWith base "/" = false ∧
     (wikiUrl = base ∨ wikiUrl = base +:+ "/") ∧
     baseUrl wikiUrl = base +:+ "/" +:+ "lib/exe/jsonrpc.php") ∧
  baseUrl "https://wiki.example.com/" = "https://wiki.example.com/lib/exe/jsonrpc.php" ∧
  baseUrl "https://wiki.example.com" = "https://wiki.example.com/lib/exe/jsonrpc.php".
Proof.
  intros Hdouble. split; [|split; reflexivity].
  unfold baseUrl. destruct (endsWith wikiUrl "/") eqn:Hends.
  - apply endsWith_spec in Hends as [base ->]. exists base.
    split; [|split; [by right|by rewrite append_assoc]].
    destruct (endsWith base "/") eqn:Hbase; [|done].
    apply endsWith_spec in Hbase as [base' ->].
    assert (endsWith ((base' +:+ "/") +:+ "/") "//" = true) as Htwo.
    { apply endsWith_spec. exists base'. by rewrite append_assoc. }
    congruence.
  - exists wikiUrl. split; [done|]. split; [by left|done].
Qed.

Lemma C7_baseUrl_exactly_one_slash_witness :
  (∃ base : string,
     endsWith base "/" = false ∧
     ("https://wiki.example.com/" = base ∨ "https://wiki.example.com/" = base +:+ "/") ∧
     baseUrl "https://wiki.example.com/" = base +:+ "/" +:+ "lib/exe/jsonrpc.php") ∧
  baseUrl "https://wiki.example.com/" = "https://wiki.example.com/lib/exe/jsonrpc.php" ∧
  baseUrl "https://wiki.example.com" = "https://wiki.example.com/lib/exe/jsonrpc.php".
Proof.
  apply (C7_baseUrl_exactly_one_slash "https://wiki.example.com/"). reflexivity.
Defined.

(** * Further properties of the code *)

(** ** Error enrichment, continued *)

Lemma throw_new_Error_run {A} (msg : string) (h : heap) :
  @throw_new_Error A msg h = Some (Throw (length h), h ++ [fresh_Error msg]).
Proof. reflexivity. Qed.

(** X1. Enriching twice, as happens when a failure of [client.call] is caught
    again by [manage_dokuwiki]: for an error with a non-zero table code and a
    string message, the second pass rebuilds the message from the table and
    appends the technical message kept by the first pass, so that the final
    message is "<description> (Code: <code>)", then " - <message>" if that
    message is non-empty and not already contained, then the suggestion for
    the result, if there is one. *)
Theorem X1_call_catch_twice
    (h : heap) (error : loc) (e : ErrorObj) (c : Z) (d m : string) :
  h !! error = Some e →
  code e = Some c → c ≠ 0 →
  ERROR_MESSAGES !! c = Some d →
  message e = Some m →
  ∃ (r1 r2 : loc) (h1 h2 : heap) (e2 : ErrorObj),
    call_catch error h = Some (Throw r1, h1) ∧
    call_catch r1 h1 = Some (Throw r2, h2) ∧
    h2 !! r2 = Some e2 ∧ code e2 = Some c ∧
    message e2 = Some (with_suggestion (specified_message d c m)
                         (suggestion c (specified_message d c m))) ∧
    h2 !! error = Some e.
Proof.
  intros Hr Hc Hc0 Hd Hm.
  pose proof Hc0 as Hc0'%Z.eqb_neq.
  set (e1 := mkError
               (Some (with_suggestion (enhanced_message e)
                        (suggestion c (enhanced_message e))))
               (Some c) (message e)).
  assert (call_catch error h = Some (Throw (length h), h ++ [e1])) as Hfirst.
  { rewrite (call_catch_run _ _ _ Hr), Hc, Hc0'. done. }
  assert ((h ++ [e1]) !! length h = Some e1) as Hr1 by apply lookup_new.
  assert (enhanced_message e1 = specified_message d c m) as Hmsg.
  { unfold enhanced_message, specified_message, e1. cbn [code originalMessage message].
    rewrite Hm. cbn [ERROR_MESSAGES_at from_option]. rewrite Hd.
    cbn [truthy_string toString default from_option id].
    by rewrite (ERROR_MESSAGES_truthy _ _ Hd). }
  eexists (length h), (length (h ++ [e1])), (h ++ [e1]), _, _.
  split; [done|]. split.
  { rewrite (call_catch_run _ _ _ Hr1). unfold e1 at 1. cbn [code].
    rewrite Hc0'. done. }
  split; [apply lookup_new|]. split; [done|].
  split; [cbn [message]; by rewrite Hmsg|].
  by apply lookup_old, lookup_old.
Qed.

Lemma X1_call_catch_twice_witness :
  let error := mkError (Some "Technical database error") (Some 500) None in
  ∃ (r1 r2 : loc) (h1 h2 : heap) (e2 : ErrorObj),
    call_catch 0%nat [error] = Some (Throw r1, h1) ∧
    call_catch r1 h1 = Some (Throw r2, h2) ∧
    h2 !! r2 = Some e2 ∧ code e2 = Some 500 ∧
    message e2 =
      Some (with_suggestion
              (specified_message "Server error occurred. Please try again later" 500
                 "Technical database error")
              (suggestion 500
                 (specified_message "Server error occurred. Please try again later" 500
                    "Technical database error"))) ∧
    h2 !! 0%nat = Some error.
Proof.
  intros error.
  apply (X1_call_catch_twice [error] 0%nat error 500
           "Server error occurred. Please try again later" "Technical database error");
    [reflexivity | reflexivity | lia | vm_compute; reflexivity | reflexivity].
Defined.

(** X2. Each suggestion belongs to exactly one class of codes: for an error
    with a non-zero code whose message is a string without "Authentication
    failed", the authentication suggestion is returned exactly for 401, the
    permission suggestion exactly for 403, 111 and 212, the connection
    suggestion exactly for 1000 up to 1999, the page-locked suggestion
    exactly for 133 and the server suggestion exactly for 500 up to 599: the
    order of the tests does not matter. *)
Theorem X2_getRecoverySuggestion_classes
    (h : heap) (error : loc) (e : ErrorObj) (c : Z) (m : string) :
  h !! error = Some e →
  code e = Some c → c ≠ 0 →
  message e = Some m →
  includes m "Authentication failed" = false →
  let result := getRecoverySuggestion error h in
  (result = Some (Normal (Some AUTH_SUGGESTION), h) ↔ c = 401) ∧
  (result = Some (Normal (Some PERMISSION_SUGGESTION), h) ↔ c = 403 ∨ c = 111 ∨ c = 212) ∧
  (result = Some (Normal (Some CONNECTION_SUGGESTION), h) ↔ 1000 ≤ c < 2000) ∧
  (result = Some (Normal (Some LOCKED_SUGGESTION), h) ↔ c = 133) ∧
  (result = Some (Normal (Some SERVER_SUGGESTION), h) ↔ 500 ≤ c < 600).
Proof.
  intros Hr Hc Hc0 Hm Hphrase result. subst result.
  rewrite (getRecoverySuggestion_string _ _ _ _ _ Hr Hc Hc0 Hm).
  unfold suggestion. rewrite Hphrase, orb_false_r.
  destruct (Z.eqb_spec c 401), (Z.eqb_spec c 403), (Z.eqb_spec c 111),
    (Z.eqb_spec c 212), (Z.eqb_spec c 133),
    (Z.leb_spec 1000 c), (Z.ltb_spec c 2000), (Z.leb_spec 500 c), (Z.ltb_spec c 600);
    cbn [orb andb];
    repeat split; intros; try lia; try done; exfalso; try lia.
Qed.

Lemma X2_getRecoverySuggestion_classes_witness :
  let error := mkError (Some "Page locked") (Some 133) None in
  let result := getRecoverySuggestion 0%nat [error] in
  (result = Some (Normal (Some AUTH_SUGGESTION), [error]) ↔ 133 = 401) ∧
  (result = Some (Normal (Some PERMISSION_SUGGESTION), [error])
   ↔ 133 = 403 ∨ 133 = 111 ∨ 133 = 212) ∧
  (result = Some (Normal (Some CONNECTION_SUGGESTION), [error]) ↔ 1000 ≤ 133 < 2000) ∧
  (result = Some (Normal (Some LOCKED_SUGGESTION), [error]) ↔ 133 = 133) ∧
  (result = Some (Normal (Some SERVER_SUGGESTION), [error]) ↔ 500 ≤ 133 < 600).
Proof.
  intros error.
  apply (X2_getRecoverySuggestion_classes [error] 0%nat error 133 "Page locked");
    [reflexivity | reflexivity | lia | reflexivity | reflexivity].
Defined.

(** ** Credentials and client construction *)

(** X3. For settings whose strings are strings of 8-bit characters (the
    domain of [btoa], and of this development): [getAuthHeaders] returns
    headers exactly for valid settings, that is, a settings object with a
    non-empty URL and password whose method is BASIC_AUTH with a non-empty
    user name, or BEARER_TOKEN.  In every other case it throws. *)
Theorem X3_getAuthHeaders_returns_iff_valid
    (userSettings : option UserSettings) (h : heap) :
  (∃ (headers : gmap string string) (h' : heap),
     getAuthHeaders userSettings h = Some (Normal headers, h'))
  ↔ valid_settings userSettings = true.
Proof.
  unfold getAuthHeaders, valid_settings.
  destruct userSettings as [s|]; [|split; [by intros (? & ? & ?)|done]].
  destruct (truthy_string (wikiUrl s)); cbn [negb andb];
    [|split; [by intros (? & ? & ?)|done]].
  destruct (truthy_string (password s)); cbn [negb andb].
  2: { destruct (truthy_string (authMethod s)); cbn [negb];
         (split; [by intros (? & ? & ?)|done]). }
  destruct (decide (authMethod s = Some "BASIC_AUTH")) as [Hbasic|Hbasic].
  - rewrite Hbasic. cbn [truthy_string truthy negb].
    rewrite !bool_decide_eq_true_2 by done. rewrite bool_decide_eq_false_2 by done.
    rewrite orb_false_r. cbn [andb].
    destruct (truthy_string (username s)); cbn [negb];
      [split; [done|eauto]|split; [by intros (? & ? & ?)|done]].
  - rewrite (bool_decide_eq_false_2 _ Hbasic). cbn [andb orb].
    destruct (decide (authMethod s = Some "BEARER_TOKEN")) as [Hbearer|Hbearer].
    + rewrite Hbearer. cbn [truthy_string truthy negb].
      rewrite bool_decide_eq_true_2 by done. split; [done|eauto].
    + rewrite (bool_decide_eq_false_2 _ Hbearer).
      destruct (truthy_string (authMethod s)); cbn [negb];
        (split; [by intros (? & ? & ?)|done]).
Qed.

(** X4. Whenever [getAuthHeaders] returns, the store is as it was and the
    result has exactly two headers: [Content-Type: application/json] and an
    [Authorization] header that starts with "Basic " or "Bearer ". *)
Theorem X4_getAuthHeaders_result_shape
    (userSettings : option UserSettings) (h h' : heap) (headers : gmap string string) :
  getAuthHeaders userSettings h = Some (Normal headers, h') →
  h' = h ∧
  dom headers = ({[ "Content-Type"; "Authorization" ]} : gset string) ∧
  headers !! "Content-Type" = Some "application/json" ∧
  ∃ authorization : string,
    headers !! "Authorization" = Some authorization ∧
    (startsWith authorization "Basic " = true ∨ startsWith authorization "Bearer " = true).
Proof.
  unfold getAuthHeaders.
  destruct userSettings as [s|]; [|done].
  destruct (truthy_string (wikiUrl s)); [|done].
  destruct (truthy_string (authMethod s)); [|done].
  destruct (truthy_string (password s)); [|done]. cbn [negb].
  assert (∀ a : string,
            dom (<["Authorization" := a]> ({[ "Content-Type" := "application/json" ]}
                   : gmap string string))
            = ({[ "Content-Type"; "Authorization" ]} : gset string)) as Hdom.
  { intros a. rewrite dom_insert_L, dom_singleton_L. set_solver. }
  destruct (bool_decide _).
  - destruct (truthy_string (username s)); [|done]. cbn [negb].
    intros [= <- <-]. split; [done|]. split; [apply Hdom|].
    split; [done|]. eexists. split; [apply lookup_insert_eq|].
    left. apply startsWith_spec. eauto.
  - destruct (bool_decide _); [|done].
    intros [= <- <-]. split; [done|]. split; [apply Hdom|].
    split; [done|]. eexists. split; [apply lookup_insert_eq|].
    right. apply startsWith_spec. eauto.
Qed.

Lemma X4_getAuthHeaders_result_shape_witness :
  let headers : gmap string string :=
    {[ "Authorization" := "Bearer token123"; "Content-Type" := "application/json" ]} in
  ([] : heap) = [] ∧
  dom headers = ({[ "Content-Type"; "Authorization" ]} : gset string) ∧
  headers !! "Content-Type" = Some "application/json" ∧
  ∃ authorization : string,
    headers !! "Authorization" = Some authorization ∧
    (startsWith authorization "Basic " = true ∨ startsWith authorization "Bearer " = true).
Proof.
  intros headers.
  apply (X4_getAuthHeaders_result_shape
           (Some (mkSettings (Some "https://wiki.example.com") (Some "BEARER_TOKEN")
                    None (Some "token123"))) [] [] headers).
  reflexivity.
Defined.

(** X5. The validation failures of [getAuthHeaders], in the order in which
    the code tests: no settings; then a missing or empty URL; then a missing
    or empty method; then a missing or empty password; then, for BASIC_AUTH,
    a missing or empty user name; then a method that is neither BASIC_AUTH
    nor BEARER_TOKEN, which the message names.  Each throws a new error
    without a code and leaves the objects of the store as they were. *)
Theorem X5_getAuthHeaders_failures (s : UserSettings) (h : heap) :
  let fails (with_message : string) :=
    getAuthHeaders (Some s) h = Some (Throw (length h), h ++ [fresh_Error with_message]) in
  getAuthHeaders None h
    = Some (Throw (length h), h ++ [fresh_Error "User settings are required"]) ∧
  (truthy_string (wikiUrl s) = false →
   fails "DokuWiki URL is required in settings") ∧
  (truthy_string (wikiUrl s) = true → truthy_string (authMethod s) = false →
   fails "Authentication method is required in settings") ∧
  (truthy_string (wikiUrl s) = true → truthy_string (authMethod s) = true →
   truthy_string (password s) = false →
   fails "Password/Token is required in settings") ∧
  (truthy_string (wikiUrl s) = true → truthy_string (password s) = true →
   authMethod s = Some "BASIC_AUTH" → truthy_string (username s) = false →
   fails "Username is required for Basic Authentication") ∧
  (∀ method : string,
     truthy_string (wikiUrl s) = true → truthy_string (password s) = true →
     authMethod s = Some method → truthy method = true →
     method ≠ "BASIC_AUTH" → method ≠ "BEARER_TOKEN" →
     fails ("Unsupported authentication method: " +:+ method
            +:+ ". Use BASIC_AUTH or BEARER_TOKEN.")).
Proof.
  intros fails. subst fails. unfold getAuthHeaders.
  split; [done|]. split; [by intros ->|].
  split; [by intros -> ->|]. split; [by intros -> -> ->|].
  split.
  - intros -> -> -> ->. done.
  - intros method -> -> -> Hm Hbasic Hbearer.
    cbn [truthy_string negb]. rewrite Hm. cbn [negb].
    rewrite !bool_decide_eq_false_2 by congruence. done.
Qed.

Lemma X5_getAuthHeaders_failures_witness :
  let s := mkSettings (Some "https://wiki.example.com") (Some "UNKNOWN_AUTH")
             (Some "user") (Some "password123") in
  getAuthHeaders (Some s) []
    = Some (Throw 0%nat,
            [fresh_Error ("Unsupported authentication method: " +:+ "UNKNOWN_AUTH"
                          +:+ ". Use BASIC_AUTH or BEARER_TOKEN.")]).
Proof.
  intros s.
  apply (X5_getAuthHeaders_failures s []); [reflexivity..| |]; discriminate.
Defined.

(** X6. Whatever the URL, the endpoint starts with it and ends with
    "/lib/exe/jsonrpc.php". *)
Theorem X6_baseUrl_prefix_and_suffix (wikiUrl : string) :
  startsWith (baseUrl wikiUrl) wikiUrl = true ∧
  endsWith (baseUrl wikiUrl) "/lib/exe/jsonrpc.php" = true.
Proof.
  unfold baseUrl. destruct (endsWith wikiUrl "/") eqn:Hends.
  - split; [apply startsWith_spec; eauto|].
    apply endsWith_spec in Hends as [base ->]. apply endsWith_spec.
    exists base. by rewrite append_assoc.
  - split; [apply startsWith_spec; eauto|]. apply endsWith_spec. eauto.
Qed.

(** The [catch] of [jsonRpcCall], run on an error that was just put into the
    store. *)
Lemma raised_run (method : string) (e : ErrorObj) (h : heap) :
  (m <- get_message (length h) ;;
   found <- call_includes m "DokuWiki API error" ;;
   (if negb found then
      m <- get_message (length h) ;;
      set_message (length h)
        (Some ("DokuWiki API error calling " +:+ method +:+ ": " +:+ toString m))
    else ret tt) ;;
   throw (length h)) (h ++ [e])
  = Some (raised method e h).
Proof.
  unfold raised, with_context, get_message, set_message, call_includes, throw_TypeError,
    new_Error, update, read, throw, bind, ret.
  rewrite lookup_new. destruct (message e) as [m|] eqn:Hm.
  - destruct (includes m _); cbn [negb].
    + destruct e; cbn in *. by subst.
    + by rewrite !lookup_new, insert_new, Hm.
  - rewrite length_app, Nat.add_1_r. by rewrite <- app_assoc.
Qed.

Lemma jsonRpcCall_run (fetch : string → Request → FetchOutcome) (Date_now : Z)
    (this : JsonRpcClient.t) (method : string) (params : value) (h : heap) :
  jsonRpcCall fetch Date_now this method params h
  = Some (jsonRpcCall_outcome method
            (fetch (JsonRpcClient.baseUrl this) (request_of this Date_now method params)) h).
Proof.
  unfold jsonRpcCall, jsonRpcCall_outcome, request_of, try_catch.
  destruct (fetch _ _) as [response|e].
  - destruct (ok response); cbn [negb].
    + destruct (json response) as [parsed|e].
      * destruct (error parsed) as [| |eo]; [done|done|].
        unfold new_Error, set_code, update, bind at 1 2.
        rewrite lookup_new, insert_new. cbn [message code originalMessage throw].
        apply (raised_run method
                 (mkError (Some (default "" (Rpc.message eo))) (Rpc.code eo) None) h).
      * unfold runtime_error, bind at 1. cbn [throw]. apply raised_run.
    + rewrite throw_new_Error_run. apply raised_run.
  - unfold runtime_error, bind at 1. cbn [throw]. apply raised_run.
Qed.

Lemma includes_with_context (method m : string) :
  includes (with_context method m) "DokuWiki API error" = true.
Proof.
  unfold with_context. destruct (includes m _) eqn:Hin; [done|].
  apply includes_spec.
  exists "", (" calling " +:+ method +:+ ": " +:+ m). reflexivity.
Qed.

Lemma includes_with_context_r (method m t : string) :
  includes m t = true → includes (with_context method m) t = true.
Proof.
  unfold with_context. destruct (includes m "DokuWiki API error"); [done|].
  rewrite !includes_spec. intros (p & r & ->).
  exists ("DokuWiki API error calling " +:+ method +:+ ": " +:+ p), r.
  by rewrite !append_assoc.
Qed.

(** ** The transport, continued *)

(** X7. A response without a success status makes the call fail with a new
    error that has no code and whose message names the calling context, the
    status ("HTTP error <status>") and the text of the response body. *)
Theorem X7_jsonRpcCall_http_error
    (fetch : string → Request → FetchOutcome) (Date_now : Z)
    (this : JsonRpcClient.t) (method : string) (params : value)
    (response : Response) (h : heap) :
  fetch (JsonRpcClient.baseUrl this) (request_of this Date_now method params)
    = FetchResolved response →
  ok response = false →
  ∃ (thrown : ErrorObj) (m : string),
    jsonRpcCall fetch Date_now this method params h
      = Some (Throw (length h), h ++ [thrown]) ∧
    code thrown = None ∧ message thrown = Some m ∧
    includes m "DokuWiki API error" = true ∧
    includes m ("HTTP error " +:+ ofNumber (status response)) = true ∧
    includes m (text response) = true.
Proof.
  intros Hfetch Hok.
  rewrite jsonRpcCall_run, Hfetch. unfold jsonRpcCall_outcome. rewrite Hok.
  unfold raised, fresh_Error. cbn [message code originalMessage].
  eexists _, _. split; [done|]. split; [done|]. split; [done|].
  split; [apply includes_with_context|].
  split; apply includes_with_context_r, includes_spec.
  - exists "", (": " +:+ text response). by rewrite !append_assoc.
  - exists ("HTTP error " +:+ ofNumber (status response) +:+ ": "), "".
    by rewrite append_nil_r, !append_assoc.
Qed.

Lemma X7_jsonRpcCall_http_error_witness :
  let response := mkResponse false 404 "Not Found" (JsonRejected (mkError None None None)) in
  let this := JsonRpcClient.mk "https://wiki.example.com/lib/exe/jsonrpc.php" ∅ in
  ∃ (thrown : ErrorObj) (m : string),
    jsonRpcCall (answering response) 1234567890 this "test.method" VUndefined []
      = Some (Throw 0%nat, [thrown]) ∧
    code thrown = None ∧ message thrown = Some m ∧
    includes m "DokuWiki API error" = true ∧
    includes m ("HTTP error " +:+ ofNumber 404) = true ∧
    includes m "Not Found" = true.
Proof.
  intros response this.
  apply (X7_jsonRpcCall_http_error (answering response) 1234567890 this "test.method"
           VUndefined response []); reflexivity.
Defined.

(** X8. When [fetch] itself fails, or the body cannot be parsed, the call
    throws the very error it was given: same code, same [originalMessage],
    and its message put behind the calling context (once: a message that
    already names "DokuWiki API error" is kept as it is). *)
Theorem X8_jsonRpcCall_rethrows_runtime_error
    (fetch : string → Request → FetchOutcome) (Date_now : Z)
    (this : JsonRpcClient.t) (method : string) (params : value)
    (e : ErrorObj) (m : string) (h : heap) :
  fetch (JsonRpcClient.baseUrl this) (request_of this Date_now method params)
    = FetchRejected e
  ∨ (∃ response,
       fetch (JsonRpcClient.baseUrl this) (request_of this Date_now method params)
         = FetchResolved response
       ∧ ok response = true ∧ json response = JsonRejected e) →
  message e = Some m →
  jsonRpcCall fetch Date_now this method params h
    = Some (Throw (length h),
            h ++ [mkError (Some (with_context method m)) (code e) (originalMessage e)])
  ∧ (includes m "DokuWiki API error" = true → with_context method m = m)
  ∧ (includes m "DokuWiki API error" = false →
     with_context method m = "DokuWiki API error calling " +:+ method +:+ ": " +:+ m).
Proof.
  intros Hfetch Hm. split.
  - rewrite jsonRpcCall_run. unfold jsonRpcCall_outcome.
    destruct Hfetch as [->|(response & -> & -> & ->)]; unfold raised; by rewrite Hm.
  - unfold with_context. split; by intros ->.
Qed.

Lemma X8_jsonRpcCall_rethrows_runtime_error_witness :
  let e := mkError (Some "Network error") None None in
  let this := JsonRpcClient.mk "https://wiki.example.com/lib/exe/jsonrpc.php" ∅ in
  jsonRpcCall (λ _ _, FetchRejected e) 1234567890 this "test.method" VUndefined []
    = Some (Throw 0%nat,
            [mkError (Some (with_context "test.method" "Network error")) None None])
  ∧ (includes "Network error" "DokuWiki API error" = true →
     with_context "test.method" "Network error" = "Network error")
  ∧ (includes "Network error" "DokuWiki API error" = false →
     with_context "test.method" "Network error"
     = "DokuWiki API error calling " +:+ "test.method" +:+ ": " +:+ "Network error").
Proof.
  intros e this.
  apply (X8_jsonRpcCall_rethrows_runtime_error (λ _ _, FetchRejected e) 1234567890 this
           "test.method" VUndefined e "Network error" []); [by left | reflexivity].
Defined.

(** X9. The call returns normally only for a response with a success
    status whose parsed body has no [error] object; what it returns is then
    that body's [result], and the store is as it was. *)
Theorem X9_jsonRpcCall_returns_only_results
    (fetch : string → Request → FetchOutcome) (Date_now : Z)
    (this : JsonRpcClient.t) (method : string) (params : value)
    (v : value) (h h' : heap) :
  jsonRpcCall fetch Date_now this method params h = Some (Normal v, h') →
  h' = h ∧
  ∃ (response : Response) (parsed : RpcResponse),
    fetch (JsonRpcClient.baseUrl this) (request_of this Date_now method params)
      = FetchResolved response ∧
    ok response = true ∧ json response = JsonParsed parsed ∧
    (error parsed = ErrorAbsent ∨ error parsed = ErrorNull) ∧
    v = result parsed.
Proof.
  rewrite jsonRpcCall_run. unfold jsonRpcCall_outcome, raised.
  destruct (fetch _ _) as [response|e] eqn:Hfetch.
  - destruct (ok response) eqn:Hok; [|done].
    destruct (json response) as [parsed|e] eqn:Hjson.
    + destruct (error parsed) as [| |eo] eqn:Herr; [| |done];
        intros [= <- <-]; (split; [done|]); exists response, parsed; eauto 10.
    + by destruct (message e).
  - by destruct (message e).
Qed.

Lemma X9_jsonRpcCall_returns_only_results_witness :
  let response := mkResponse true 200 "" (JsonParsed (mkRpcResponse (VString "") ErrorNull)) in
  let this := JsonRpcClient.mk "https://wiki.example.com/lib/exe/jsonrpc.php" ∅ in
  ([] : heap) = [] ∧
  ∃ (response' : Response) (parsed : RpcResponse),
    answering response (JsonRpcClient.baseUrl this)
      (request_of this 1234567890 "core.getPage" VUndefined)
      = FetchResolved response' ∧
    ok response' = true ∧ json response' = JsonParsed parsed ∧
    (error parsed = ErrorAbsent ∨ error parsed = ErrorNull) ∧
    VString "" = result parsed.
Proof.
  intros response this.
  apply (X9_jsonRpcCall_returns_only_results (answering response) 1234567890 this
           "core.getPage" VUndefined (VString "") [] []).
  reflexivity.
Defined.

(** A failure of the call is an object of the store with a string message. *)
Lemma jsonRpcCall_outcome_thrown (method : string) (answer : FetchOutcome)
    (r : loc) (h h' : heap) :
  jsonRpcCall_outcome method answer h = (Throw r, h') →
  ∃ (thrown : ErrorObj) (m : string),
    h' !! r = Some thrown ∧ message thrown = Some m ∧
    (includes m "DokuWiki API error" = true ∨ thrown = TypeError_includes) ∧
    (∀ (l : loc) (o : ErrorObj), h !! l = Some o → h' !! l = Some o).
Proof.
  assert (∀ e, raised method e h = (Throw r, h') →
          ∃ (thrown : ErrorObj) (m : string),
            h' !! r = Some thrown ∧ message thrown = Some m ∧
            (includes m "DokuWiki API error" = true ∨ thrown = TypeError_includes) ∧
            (∀ (l : loc) (o : ErrorObj), h !! l = Some o → h' !! l = Some o)) as Hraised.
  { intros e. unfold raised. destruct (message e) as [m|]; intros [= <- <-].
    - eexists _, _. split; [apply lookup_new|]. split; [done|].
      split; [left; apply includes_with_context|]. intros l o. apply lookup_old.
    - eexists _, _. split.
      + replace (h ++ [e; TypeError_includes]) with ((h ++ [e]) ++ [TypeError_includes])
          by by rewrite <- app_assoc.
        replace (S (length h)) with (length (h ++ [e]))
          by (rewrite length_app; cbn; lia).
        apply lookup_new.
      + split; [done|]. split; [by right|]. intros l o. apply lookup_app_l_Some. }
  unfold jsonRpcCall_outcome.
  destruct answer as [response|e]; [|apply Hraised].
  destruct (ok response); [|apply Hraised].
  destruct (json response) as [parsed|e]; [|apply Hraised].
  destruct (error parsed); [done|done|apply Hraised].
Qed.

(** X10. Every failure of the call is a thrown object of the store whose
    message is a string, and that message names "DokuWiki API error" -
    unless the runtime handed over an error without a message, in which case
    what is thrown is the [TypeError] raised by the [catch] itself. *)
Theorem X10_jsonRpcCall_failures_name_the_api
    (fetch : string → Request → FetchOutcome) (Date_now : Z)
    (this : JsonRpcClient.t) (method : string) (params : value)
    (r : loc) (h h' : heap) :
  jsonRpcCall fetch Date_now this method params h = Some (Throw r, h') →
  ∃ (thrown : ErrorObj) (m : string),
    h' !! r = Some thrown ∧ message thrown = Some m ∧
    (includes m "DokuWiki API error" = true ∨ thrown = TypeError_includes) ∧
    (∀ (l : loc) (o : ErrorObj), h !! l = Some o → h' !! l = Some o).
Proof.
  rewrite jsonRpcCall_run. intros [= Hout].
  by apply (jsonRpcCall_outcome_thrown _ _ _ _ _ Hout).
Qed.

Lemma X10_jsonRpcCall_failures_name_the_api_witness :
  let response :=
    mkResponse true 200 ""
      (JsonParsed (mkRpcResponse VNull
                     (ErrorObject (Rpc.mkErrorObject (Some 123) (Some "Test error"))))) in
  let this := JsonRpcClient.mk "https://wiki.example.com/lib/exe/jsonrpc.php" ∅ in
  ∃ (thrown : ErrorObj) (m : string),
    [mkError (Some "DokuWiki API error calling test.method: Test error") (Some 123) None]
      !! 0%nat = Some thrown ∧
    message thrown = Some m ∧
    (includes m "DokuWiki API error" = true ∨ thrown = TypeError_includes) ∧
    (∀ (l : loc) (o : ErrorObj),
       ([] : heap) !! l = Some o →
       [mkError (Some "DokuWiki API error calling test.method: Test error") (Some 123) None]
         !! l = Some o).
Proof.
  intros response this.
  apply (X10_jsonRpcCall_failures_name_the_api (answering response) 1234567890 this
           "test.method" VUndefined 0%nat []).
  reflexivity.
Defined.

(** ** Client construction, continued *)

Lemma getAuthHeaders_run (userSettings : option UserSettings) (h : heap) :
  getAuthHeaders userSettings h =
    Some (match userSettings with
          | Some s =>
              if valid_settings userSettings then (Normal (auth_headers s), h)
              else (Throw (length h), h ++ [fresh_Error (validation_message userSettings)])
          | None => (Throw (length h), h ++ [fresh_Error (validation_message userSettings)])
          end).
Proof.
  unfold getAuthHeaders, valid_settings, validation_message, auth_headers.
  destruct userSettings as [s|]; [|done].
  destruct (truthy_string (wikiUrl s)); cbn [negb andb]; [|done].
  destruct (truthy_string (password s)) eqn:Hp; cbn [negb andb].
  2: { by destruct (truthy_string (authMethod s)). }
  destruct (decide (authMethod s = Some "BASIC_AUTH")) as [Hbasic|Hbasic].
  - rewrite Hbasic. cbn [truthy_string truthy negb].
    rewrite !bool_decide_eq_true_2 by done. rewrite bool_decide_eq_false_2 by done.
    rewrite orb_false_r. cbn [andb]. by destruct (truthy_string (username s)).
  - rewrite !(bool_decide_eq_false_2 _ Hbasic). cbn [andb orb].
    destruct (decide (authMethod s = Some "BEARER_TOKEN")) as [Hbearer|Hbearer].
    + rewrite Hbearer. cbn [truthy_string truthy negb].
      by rewrite !bool_decide_eq_true_2 by done.
    + rewrite !(bool_decide_eq_false_2 _ Hbearer).
      by destruct (truthy_string (authMethod s)).
Qed.

Lemma createJsonRpcClient_run (userSettings : option UserSettings) (h : heap) :
  createJsonRpcClient userSettings h =
    Some (match userSettings with
          | None => (Throw (length h), h ++ [fresh_Error "User settings are required"])
          | Some s =>
              match wikiUrl s with
              | None => (Throw (length h), h ++ [TypeError_endsWith])
              | Some url =>
                  if valid_settings userSettings
                  then (Normal (JsonRpcClient.mk (baseUrl url) (auth_headers s)), h)
                  else (Throw (length h),
                        h ++ [fresh_Error (validation_message userSettings)])
              end
          end).
Proof.
  unfold createJsonRpcClient. destruct userSettings as [s|]; [|done].
  destruct (wikiUrl s) as [url|] eqn:Hurl; [|done].
  unfold bind. rewrite getAuthHeaders_run.
  by destruct (valid_settings (Some s)).
Qed.

(** X11. For settings whose strings are strings of 8-bit characters (the
    domain of [btoa], and of this development): [createJsonRpcClient] makes
    a client exactly for valid settings.  Whenever it makes one, it has not
    touched the store, the client's endpoint is derived from the URL and its
    headers are those of [getAuthHeaders].  Invalid settings never give a
    client. *)
Theorem X11_createJsonRpcClient_only_from_valid_settings
    (userSettings : option UserSettings) (h : heap) :
  ((∃ (client : JsonRpcClient.t) (h' : heap),
      createJsonRpcClient userSettings h = Some (Normal client, h'))
   ↔ valid_settings userSettings = true) ∧
  (∀ (client : JsonRpcClient.t) (h' : heap),
     createJsonRpcClient userSettings h = Some (Normal client, h') →
     h' = h ∧
     getAuthHeaders userSettings h = Some (Normal (JsonRpcClient.headers client), h) ∧
     ∃ (s : UserSettings) (url : string),
       userSettings = Some s ∧ wikiUrl s = Some url ∧
       JsonRpcClient.baseUrl client = baseUrl url).
Proof.
  rewrite createJsonRpcClient_run, getAuthHeaders_run.
  destruct userSettings as [s|].
  2: { split; [split; [by intros (? & ? & ?)|done]|done]. }
  destruct (wikiUrl s) as [url|] eqn:Hurl.
  - destruct (valid_settings (Some s)) eqn:Hvalid.
    + split; [split; eauto|]. intros client h' [= <- <-]. eauto 10.
    + split; [split; [by intros (? & ? & ?)|done]|done].
  - assert (valid_settings (Some s) = false) as ->
      by (unfold valid_settings; by rewrite Hurl).
    split; [split; [by intros (? & ? & ?)|done]|done].
Qed.

(** X12. Settings without a [wikiUrl] member are not reported by
    [createJsonRpcClient] as a missing URL: the endpoint is derived before
    the settings are validated, so reading [endsWith] of [undefined] raises
    a [TypeError], where [getAuthHeaders] alone reports "DokuWiki URL is
    required in settings".  An empty URL does get that report. *)
Theorem X12_createJsonRpcClient_missing_url (s : UserSettings) (h : heap) :
  (wikiUrl s = None →
   createJsonRpcClient (Some s) h = Some (Throw (length h), h ++ [TypeError_endsWith]) ∧
   getAuthHeaders (Some s) h
     = Some (Throw (length h), h ++ [fresh_Error "DokuWiki URL is required in settings"])) ∧
  (wikiUrl s = Some "" →
   createJsonRpcClient (Some s) h
     = Some (Throw (length h), h ++ [fresh_Error "DokuWiki URL is required in settings"])).
Proof.
  rewrite createJsonRpcClient_run, getAuthHeaders_run.
  unfold valid_settings, validation_message.
  split; intros ->; done.
Qed.

Lemma X12_createJsonRpcClient_missing_url_witness :
  let s := mkSettings None (Some "BASIC_AUTH") (Some "user") (Some "password123") in
  createJsonRpcClient (Some s) [] = Some (Throw 0%nat, [TypeError_endsWith]) ∧
  getAuthHeaders (Some s) []
    = Some (Throw 0%nat, [fresh_Error "DokuWiki URL is required in settings"]).
Proof.
  intros s. apply (X12_createJsonRpcClient_missing_url s []). reflexivity.
Defined.

(** X13. [testConnection] calls [core.getWikiTitle] and returns [true] when
    that call returns, whatever it returns.  When the call fails it throws
    a new error, "Failed to connect to DokuWiki: <message of the failure>",
    that has no code (the failure's code is not carried over) and leaves the
    failure's object as it was. *)
Theorem X13_testConnection
    (client_call : string → value → Js value) (h h1 : heap) (out : completion value) :
  client_call "core.getWikiTitle" VUndefined h = Some (out, h1) →
  match out with
  | Normal _ => testConnection client_call h = Some (Normal true, h1)
  | Throw r =>
      ∀ e : ErrorObj,
        h1 !! r = Some e →
        testConnection client_call h
          = Some (Throw (length h1),
                  h1 ++ [fresh_Error ("Failed to connect to DokuWiki: "
                                      +:+ toString (message e))])
  end.
Proof.
  intros Hcall. unfold testConnection, try_catch, get_message, read, bind, ret.
  rewrite Hcall. destruct out as [v|r]; [done|].
  intros e Hr. by rewrite Hr.
Qed.

Lemma X13_testConnection_witness :
  let failure := mkError (Some "Connection failed") (Some 401) None in
  testConnection (rejecting failure) []
    = Some (Throw 1%nat,
            [failure;
             fresh_Error ("Failed to connect to DokuWiki: " +:+ toString (message failure))]).
Proof.
  intros failure.
  apply (X13_testConnection (rejecting failure) [] [failure] (Throw 0%nat));
    reflexivity.
Defined.

Lemma includes_with_init_context (m : string) :
  includes (with_init_context m) "DokuWiki" = true.
Proof.
  unfold with_init_context. destruct (includes m _) eqn:Hin; [done|].
  apply includes_spec. exists "Failed to initialize ", (" client: " +:+ m). reflexivity.
Qed.

(** The [catch] of [createApiClient], run on an error that was just put
    into the store. *)
Lemma init_catch_run (e : ErrorObj) (m : string) (h : heap) :
  message e = Some m →
  (m <- get_message (length h) ;;
   found <- call_includes m "DokuWiki" ;;
   (if negb found then
      m <- get_message (length h) ;;
      set_message (length h)
        (Some ("Failed to initialize DokuWiki client: " +:+ toString m))
    else ret tt) ;;
   throw (length h)) (h ++ [e])
  = Some (Throw (length h) : completion JsonRpcClient.t,
          h ++ [mkError (Some (with_init_context m)) (code e) (originalMessage e)]).
Proof.
  intros Hm.
  unfold with_init_context, get_message, set_message, call_includes,
    update, read, throw, bind, ret.
  rewrite lookup_new, Hm. destruct (includes m _); cbn [negb].
  - destruct e; cbn in *. by subst.
  - by rewrite !lookup_new, insert_new, Hm.
Qed.

Lemma testConnection_run (client_call : string → value → Js value)
    (h h1 : heap) (out : completion value) :
  client_call "core.getWikiTitle" VUndefined h = Some (out, h1) →
  (∀ r, out = Throw r → is_Some (h1 !! r)) →
  testConnection client_call h =
    Some (match out with
          | Normal _ => (Normal true, h1)
          | Throw r =>
              (Throw (length h1),
               h1 ++ [fresh_Error ("Failed to connect to DokuWiki: "
                                   +:+ toString (h1 !! r ≫= message))])
          end).
Proof.
  intros Hcall Halloc. unfold testConnection, try_catch, get_message, read, bind, ret.
  rewrite Hcall. destruct out as [v|r]; [done|].
  destruct (Halloc r eq_refl) as [e He]. by rewrite He.
Qed.

(** What [createApiClient] comes to, by the settings and by the answer to
    the connection test. *)
Lemma createApiClient_run (fetch : string → Request → FetchOutcome) (Date_now : Z)
    (userSettings : option UserSettings) (flag : bool) (h : heap) :
  createApiClient fetch Date_now userSettings flag h =
    match createJsonRpcClient userSettings h with
    | Some (Normal client, _) =>
        if flag then
          match jsonRpcCall_outcome "core.getWikiTitle"
                  (fetch (JsonRpcClient.baseUrl client) (probe_request client Date_now)) h with
          | (Normal _, h1) => Some (Normal client, h1)
          | (Throw r, h1) =>
              Some (Throw (length h1),
                    h1 ++ [fresh_Error ("Failed to connect to DokuWiki: "
                                        +:+ toString (h1 !! r ≫= message))])
          end
        else Some (Normal client, h)
    | Some (Throw _, _) =>
        Some (Throw (length h),
              h ++ [fresh_Error
                      (with_init_context
                         (match userSettings with
                          | Some s =>
                              match wikiUrl s with
                              | None => "Cannot read properties of undefined (reading 'endsWith')"
                              | Some _ => validation_message userSettings
                              end
                          | None => validation_message userSettings
                          end))])
    | None => None
    end.
Proof.
  unfold createApiClient, try_catch, bind at 1.
  rewrite createJsonRpcClient_run.
  destruct userSettings as [s|].
  2: { apply (init_catch_run (fresh_Error "User settings are required")). done. }
  destruct (wikiUrl s) as [url|] eqn:Hurl.
  2: { by apply (init_catch_run TypeError_endsWith). }
  destruct (valid_settings (Some s)).
  2: { by apply (init_catch_run (fresh_Error (validation_message (Some s)))). }
  destruct flag; [|done].
  set (client := JsonRpcClient.mk (baseUrl url) (auth_headers s)).
  unfold bind at 1 2.
  pose proof (jsonRpcCall_run fetch Date_now client "core.getWikiTitle" VUndefined h) as Hprobe.
  fold (probe_request client Date_now) in Hprobe.
  destruct (jsonRpcCall_outcome _ _ h) as [out h1] eqn:Hout.
  rewrite (testConnection_run _ _ _ _ Hprobe).
  2: { intros r ->. destruct (jsonRpcCall_outcome_thrown _ _ _ _ _ Hout) as (? & ? & -> & _).
       eauto. }
  destruct out as [v|r]; [done|].
  destruct (jsonRpcCall_outcome_thrown _ _ _ _ _ Hout) as (thrown & m & Hr & Hm & _).
  rewrite Hr. cbn [mbind option_bind]. rewrite Hm. cbn [toString default from_option id].
  apply (init_catch_run (fresh_Error ("Failed to connect to DokuWiki: " +:+ m))
           ("Failed to connect to DokuWiki: " +:+ m) h1 eq_refl).
Qed.

(** X14. Without the connection test, [createApiClient] does not use the
    network: whenever [createJsonRpcClient] makes a client from the
    settings, [createApiClient] returns that client, with the same store,
    whatever [fetch] would answer and whatever the clock reads. *)
Theorem X14_createApiClient_without_test
    (userSettings : option UserSettings) (client : JsonRpcClient.t) (h h' : heap) :
  createJsonRpcClient userSettings h = Some (Normal client, h') →
  ∀ (fetch : string → Request → FetchOutcome) (Date_now : Z),
    createApiClient fetch Date_now userSettings false h = Some (Normal client, h').
Proof.
  intros Hclient fetch Date_now.
  assert (h' = h) as ->.
  { rewrite createJsonRpcClient_run in Hclient.
    destruct userSettings as [s|]; [|done].
    destruct (wikiUrl s); [|done].
    destruct (valid_settings (Some s)); [|done]. by injection Hclient. }
  by rewrite createApiClient_run, Hclient.
Qed.

Lemma X14_createApiClient_without_test_witness :
  let s := mkSettings (Some "https://wiki.example.com") (Some "BASIC_AUTH")
             (Some "user") (Some "password123") in
  let client := JsonRpcClient.mk (baseUrl "https://wiki.example.com") (auth_headers s) in
  createApiClient (λ _ _, FetchRejected (mkError (Some "offline") None None)) 0
    (Some s) false []
  = Some (Normal client, []).
Proof.
  intros s client.
  apply (X14_createApiClient_without_test (Some s) client [] []). reflexivity.
Defined.

(** A failure of [createApiClient] is a new error without a code. *)
Lemma createApiClient_thrown
    (fetch : string → Request → FetchOutcome) (Date_now : Z)
    (userSettings : option UserSettings) (flag : bool) (r : loc) (h h' : heap) :
  createApiClient fetch Date_now userSettings flag h = Some (Throw r, h') →
  ∃ m : string,
    h' !! r = Some (fresh_Error m) ∧ includes m "DokuWiki" = true ∧
    h !! r = None ∧
    (∀ (l : loc) (o : ErrorObj), h !! l = Some o → h' !! l = Some o).
Proof.
  rewrite createApiClient_run.
  destruct (createJsonRpcClient userSettings h) as [[[client|r0] h0]|]; [| |done].
  - destruct flag; [|done].
    destruct (jsonRpcCall_outcome _ _ h) as [[v|r1] h1] eqn:Hout; [done|].
    destruct (jsonRpcCall_outcome_thrown _ _ _ _ _ Hout) as (thrown & m & Hr & Hm & _ & Hold).
    intros [= <- <-]. eexists. split; [apply lookup_new|].
    split; [|split].
    + apply includes_spec. exists "Failed to connect to ", (": " +:+ toString (h1 !! r1 ≫= message)).
      reflexivity.
    + apply lookup_ge_None.
      destruct (h !! length h1) eqn:Hl; [|by apply lookup_ge_None in Hl].
      apply Hold, lookup_lt_Some in Hl. lia.
    + intros l o Hl. by apply lookup_old, Hold.
  - intros [= <- <-]. eexists. split; [apply lookup_new|].
    split; [apply includes_with_init_context|].
    split; [by apply lookup_ge_None|]. intros l o. apply lookup_old.
Qed.

(** X15. For settings whose strings are strings of 8-bit characters (the
    domain of [btoa], and of this development): whatever goes wrong in
    [createApiClient] - the settings, the network, the server's answer to
    the connection test - the error it throws is a new object without a
    code whose message names "DokuWiki", and the objects that were in the
    store are as they were.  In particular a code reported by the server
    during the connection test does not reach the caller. *)
Theorem X15_createApiClient_failures
    (fetch : string → Request → FetchOutcome) (Date_now : Z)
    (userSettings : option UserSettings) (flag : bool) (r : loc) (h h' : heap) :
  createApiClient fetch Date_now userSettings flag h = Some (Throw r, h') →
  ∃ m : string,
    h' !! r = Some (fresh_Error m) ∧ includes m "DokuWiki" = true ∧
    h !! r = None ∧
    (∀ (l : loc) (o : ErrorObj), h !! l = Some o → h' !! l = Some o).
Proof. apply createApiClient_thrown. Qed.

Lemma X15_createApiClient_failures_witness :
  ∃ m : string,
    [fresh_Error "Failed to initialize DokuWiki client: User settings are required"]
      !! 0%nat = Some (fresh_Error m) ∧
    includes m "DokuWiki" = true ∧
    ([] : heap) !! 0%nat = None ∧
    (∀ (l : loc) (o : ErrorObj),
       ([] : heap) !! l = Some o →
       [fresh_Error "Failed to initialize DokuWiki client: User settings are required"]
         !! l = Some o).
Proof.
  apply (X15_createApiClient_failures (λ _ _, FetchRejected (mkError None None None))
           0 None true 0%nat []).
  reflexivity.
Defined.

(** X16. With the connection test and valid settings, the client is
    returned exactly when the [core.getWikiTitle] call returns.  When that
    call fails, [createApiClient] throws "Failed to connect to DokuWiki:
    <message of the failure>", without the "Failed to initialize" prefix. *)
Theorem X16_createApiClient_with_test
    (fetch : string → Request → FetchOutcome) (Date_now : Z)
    (userSettings : option UserSettings) (client : JsonRpcClient.t)
    (h h1 : heap) (out : completion value) :
  createJsonRpcClient userSettings h = Some (Normal client, h) →
  jsonRpcCall fetch Date_now client "core.getWikiTitle" VUndefined h = Some (out, h1) →
  match out with
  | Normal _ => createApiClient fetch Date_now userSettings true h = Some (Normal client, h1)
  | Throw r =>
      ∃ (e : ErrorObj) (m : string),
        h1 !! r = Some e ∧ message e = Some m ∧
        createApiClient fetch Date_now userSettings true h
          = Some (Throw (length h1),
                  h1 ++ [fresh_Error ("Failed to connect to DokuWiki: " +:+ m)])
  end.
Proof.
  intros Hclient. rewrite jsonRpcCall_run. fold (probe_request client Date_now).
  intros [= Hout]. rewrite createApiClient_run, Hclient, Hout.
  destruct out as [v|r]; [done|].
  destruct (jsonRpcCall_outcome_thrown _ _ _ _ _ Hout) as (thrown & m & Hr & Hm & _).
  exists thrown, m. split; [done|]. split; [done|].
  rewrite Hr. cbn [mbind option_bind]. by rewrite Hm.
Qed.

Lemma X16_createApiClient_with_test_witness :
  let s := mkSettings (Some "https://wiki.example.com") (Some "BASIC_AUTH")
             (Some "user") (Some "wrong") in
  let client := JsonRpcClient.mk (baseUrl "https://wiki.example.com") (auth_headers s) in
  let denied :=
    answering (mkResponse true 200 ""
                 (JsonParsed (mkRpcResponse VNull
                    (ErrorObject (Rpc.mkErrorObject (Some 401) (Some "Unauthorized")))))) in
  let failure :=
    mkError (Some "DokuWiki API error calling core.getWikiTitle: Unauthorized")
      (Some 401) None in
  ∃ (e : ErrorObj) (m : string),
    [failure] !! 0%nat = Some e ∧ message e = Some m ∧
    createApiClient denied 1234567890 (Some s) true []
      = Some (Throw 1%nat,
              [failure; fresh_Error ("Failed to connect to DokuWiki: " +:+ m)]).
Proof.
  intros s client denied failure.
  apply (X16_createApiClient_with_test denied 1234567890 (Some s) client [] [failure]
           (Throw 0%nat)); reflexivity.
Defined.

(** ** The facade over the transport *)

(** [client.call] over the transport, when the server answers with an
    [error] object. *)
Lemma call_over_transport_error_object
    (fetch : string → Request → FetchOutcome) (Date_now : Z)
    (this : JsonRpcClient.t) (method : string) (params : value)
    (response : Response) (parsed : RpcResponse) (eo : Rpc.error_object) (h : heap) :
  fetch (JsonRpcClient.baseUrl this) (request_of this Date_now method params)
    = FetchResolved response →
  ok response = true → json response = JsonParsed parsed →
  error parsed = ErrorObject eo →
  ∃ (r : loc) (h' : heap) (thrown : ErrorObj),
    call (jsonRpcCall fetch Date_now this) method params h = Some (Throw r, h') ∧
    h' !! r = Some thrown ∧ code thrown = Rpc.code eo ∧
    (∀ (l : loc) (o : ErrorObj), h !! l = Some o → h' !! l = Some o).
Proof.
  intros Hfetch Hok Hjson Herr.
  set (e0 := mkError (Some (with_context method (default "" (Rpc.message eo))))
               (Rpc.code eo) None).
  assert (jsonRpcCall fetch Date_now this method (default_params params) h
          = Some (Throw (length h), h ++ [e0])) as Hcall.
  { rewrite jsonRpcCall_run. unfold request_of.
    assert (default_params (default_params params) = default_params params) as ->
      by by destruct params.
    fold (request_of this Date_now method params).
    rewrite Hfetch. unfold jsonRpcCall_outcome. by rewrite Hok, Hjson, Herr. }
  rewrite (call_throw _ _ _ _ _ _ Hcall).
  rewrite (call_catch_run _ _ e0 (lookup_new h e0)).
  unfold e0 at 1. cbn [code].
  destruct (Rpc.code eo) as [c|] eqn:Hc; [destruct (c =? 0)|].
  - eexists _, _, e0. split; [done|]. split; [apply lookup_new|].
    split; [done|]. intros l o. apply lookup_old.
  - eexists _, _, _. split; [done|]. split; [apply lookup_new|].
    split; [done|]. intros l o Hl. by apply lookup_old, lookup_old.
  - eexists _, _, e0. split; [done|]. split; [apply lookup_new|].
    split; [done|]. intros l o. apply lookup_old.
Qed.

(** X17. [pageExists] over the real transport, by the server's answer to
    the [core.getPageInfo] request: any body without an [error] object gives
    [true]; an [error] object gives [false] exactly when its code is 121 and
    is thrown on otherwise; a response without a success status is thrown
    on, never turned into [false]. *)
Theorem X17_pageExists_by_server_answer
    (fetch : string → Request → FetchOutcome) (Date_now : Z)
    (this : JsonRpcClient.t) (pageId : string) (response : Response) (h : heap) :
  fetch (JsonRpcClient.baseUrl this)
    (request_of this Date_now "core.getPageInfo" (VObject [("page", VString pageId)]))
    = FetchResolved response →
  let result := pageExists (jsonRpcCall fetch Date_now this) pageId h in
  (ok response = false → ∃ (r : loc) (h' : heap), result = Some (Throw r, h')) ∧
  (∀ parsed : RpcResponse,
     ok response = true → json response = JsonParsed parsed →
     match error parsed with
     | ErrorAbsent | ErrorNull => result = Some (Normal true, h)
     | ErrorObject eo =>
         ∃ (r : loc) (h' : heap),
           result = Some (if strict_eq (Rpc.code eo) 121 then Normal false else Throw r, h')
     end).
Proof.
  intros Hfetch result. subst result.
  set (params := VObject [("page", VString pageId)]) in *.
  split.
  - intros Hok.
    assert (∃ r h', call (jsonRpcCall fetch Date_now this) "core.getPageInfo" params h
                    = Some (Throw r, h') ∧ ∃ e, h' !! r = Some e ∧ code e = None)
      as (r & h' & Hcall & e & Hr & Hc).
    { assert (jsonRpcCall fetch Date_now this "core.getPageInfo" (default_params params) h
              = Some (raised "core.getPageInfo"
                        (fresh_Error ("HTTP error " +:+ ofNumber (status response) +:+ ": "
                                      +:+ text response)) h)) as Hraise.
      { rewrite jsonRpcCall_run. cbn [default_params params].
        fold params. rewrite Hfetch. unfold jsonRpcCall_outcome. by rewrite Hok. }
      unfold raised, fresh_Error in Hraise. cbn [message code originalMessage] in Hraise.
      rewrite (call_throw _ _ _ _ _ _ Hraise).
      erewrite call_catch_run by apply lookup_new. cbn [code].
      eexists _, _. split; [done|]. eexists. split; [apply lookup_new|done]. }
    destruct (exists_check_try_catch 121 _ _ _ _ Hcall) as (_ & _ & Hthrow & _).
    exists r, h'. apply (Hthrow r e); [done|done|]. by rewrite Hc.
  - intros parsed Hok Hjson. destruct (error parsed) as [| |eo] eqn:Herr.
    1,2: assert (call (jsonRpcCall fetch Date_now this) "core.getPageInfo" params h
                 = Some (Normal (result parsed), h)) as Hcall
           by (unfold call, try_catch; rewrite jsonRpcCall_run; cbn [default_params params];
               fold params; rewrite Hfetch; unfold jsonRpcCall_outcome;
               by rewrite Hok, Hjson, Herr);
         destruct (exists_check_try_catch 121 _ _ _ _ Hcall) as (Htrue & _); by eapply Htrue.
    destruct (call_over_transport_error_object _ _ _ _ _ _ _ _ h Hfetch Hok Hjson Herr)
      as (r & h' & thrown & Hcall & Hr & Hc & _).
    destruct (exists_check_try_catch 121 _ _ _ _ Hcall) as (_ & Hfalse & Hthrow & _).
    exists r, h'. rewrite <- Hc.
    destruct (code thrown) as [c|] eqn:Hcode; cbn [strict_eq].
    + destruct (Z.eqb_spec c 121) as [->|Hne].
      * by apply (Hfalse r thrown).
      * apply (Hthrow r thrown); [done|done|]. rewrite Hcode. congruence.
    + apply (Hthrow r thrown); [done|done|]. by rewrite Hcode.
Qed.

Lemma X17_pageExists_by_server_answer_witness :
  let response :=
    mkResponse true 200 ""
      (JsonParsed (mkRpcResponse VNull
                     (ErrorObject (Rpc.mkErrorObject (Some 121) (Some "Page not found"))))) in
  let this := JsonRpcClient.mk "https://wiki.example.com/lib/exe/jsonrpc.php" ∅ in
  let result := pageExists (jsonRpcCall (answering response) 1234567890 this)
                  "test:nonexistent" [] in
  (ok response = false → ∃ (r : loc) (h' : heap), result = Some (Throw r, h')) ∧
  (∀ parsed : RpcResponse,
     ok response = true → json response = JsonParsed parsed →
     match error parsed with
     | ErrorAbsent | ErrorNull => result = Some (Normal true, [])
     | ErrorObject eo =>
         ∃ (r : loc) (h' : heap),
           result = Some (if strict_eq (Rpc.code eo) 121 then Normal false else Throw r, h')
     end).
Proof.
  intros response this.
  apply (X17_pageExists_by_server_answer (answering response) 1234567890 this
           "test:nonexistent" response []).
  reflexivity.
Defined.

(** ** The plugin's operations *)

Lemma get_member_object (members : list (string * value)) (key : string) (h : heap) :
  get_member (VObject members) key h = Some (Normal (member members key), h).
Proof. reflexivity. Qed.

Ltac run_members :=
  unfold bind; repeat (progress (rewrite ?get_member_object; cbv beta iota)).

(** X18. Every operation that needs a page or media id tests it first: when
    [pageId] (or [mediaId]) is missing or falsy (empty, 0, [null], [false])
    the operation throws its own "... is required for <operation>
    operation" error, a new object without a code, and the client is not
    called at all. *)
Theorem X18_operations_require_ids
    (client_call : string → value → Js value) (members : list (string * value)) (h : heap) :
  let params := VObject members in
  let fails (operation : value → Js value) (with_message : string) :=
    operation params h = Some (Throw (length h), h ++ [fresh_Error with_message]) in
  (truthy_value (member members "pageId") = false →
   fails (getPage client_call) "Page ID is required for get_page operation" ∧
   fails (savePage client_call) "Page ID is required for save_page operation" ∧
   fails (appendPage client_call) "Page ID is required for append_page operation" ∧
   fails (getPageInfo client_call) "Page ID is required for get_page_info operation" ∧
   fails (getPageHistory client_call) "Page ID is required for get_page_history operation") ∧
  (truthy_value (member members "mediaId") = false →
   fails (getMedia client_call) "Media ID is required for get_media operation" ∧
   fails (saveMedia client_call) "Media ID is required for save_media operation" ∧
   fails (deleteMedia client_call) "Media ID is required for delete_media operation").
Proof.
  intros params fails. subst params fails.
  unfold getPage, savePage, appendPage, getPageInfo, getPageHistory,
    getMedia, saveMedia, deleteMedia.
  split; intros Hid; run_members; rewrite Hid; cbn [negb]; done.
Qed.

Lemma X18_operations_require_ids_witness :
  let params := VObject [("pageId", VString ""); ("content", VString "text")] in
  getPage (rejecting (mkError None None None)) params []
    = Some (Throw 0%nat, [fresh_Error "Page ID is required for get_page operation"]).
Proof.
  intros params.
  apply (X18_operations_require_ids (rejecting (mkError None None None))
           [("pageId", VString ""); ("content", VString "text")] []).
  reflexivity.
Defined.

(** X19. [getPage] with a page id asks for [core.getPage] with that page and
    with revision [rev], or 0 when [rev] is missing or falsy.  A result is
    returned as it is; a failure with code 121 (no such page) is turned into
    the empty string; any other failure is thrown on unchanged. *)
Theorem X19_getPage
    (client_call : string → value → Js value) (members : list (string * value))
    (h h1 : heap) (out : completion value) :
  truthy_value (member members "pageId") = true →
  client_call "core.getPage"
    (VObject [("page", member members "pageId");
              ("rev", or_else (member members "rev") (VNumber 0))]) h
    = Some (out, h1) →
  match out with
  | Normal v => getPage client_call (VObject members) h = Some (Normal v, h1)
  | Throw r =>
      ∀ e : ErrorObj,
        h1 !! r = Some e →
        getPage client_call (VObject members) h
          = Some (if strict_eq (code e) 121 then Normal (VString "") else Throw r, h1)
  end.
Proof.
  intros Hid Hcall. unfold getPage, try_catch. run_members. rewrite Hid. cbn [negb].
  run_members. rewrite Hcall. destruct out as [v|r]; [done|].
  intros e Hr. unfold get_code, read, ret. run_members. rewrite Hr.
  by destruct (strict_eq (code e) 121).
Qed.

Lemma X19_getPage_witness :
  let not_found := mkError (Some "Page not found") (Some 121) None in
  getPage (rejecting not_found) (VObject [("pageId", VString "start")]) []
    = Some (if strict_eq (code not_found) 121 then Normal (VString "") else Throw 0%nat,
            [not_found]).
Proof.
  intros not_found.
  apply (X19_getPage (rejecting not_found) [("pageId", VString "start")] [] [not_found]
           (Throw 0%nat)); reflexivity.
Defined.

(** X20. [savePage] and [appendPage] differ on empty content.  [savePage]
    only rejects content that is [undefined]: content that is present but
    falsy (the empty string, [null], 0) is sent to [core.savePage] as it is.
    [appendPage] rejects every falsy content. *)
Theorem X20_savePage_appendPage_empty_content
    (client_call : string → value → Js value) (members : list (string * value)) (h : heap) :
  truthy_value (member members "pageId") = true →
  truthy_value (member members "content") = false →
  appendPage client_call (VObject members) h
    = Some (Throw (length h),
            h ++ [fresh_Error "Content is required for append_page operation"]) ∧
  (member members "content" = VUndefined →
   savePage client_call (VObject members) h
     = Some (Throw (length h),
             h ++ [fresh_Error "Content is required for save_page operation"])) ∧
  (member members "content" ≠ VUndefined →
   savePage client_call (VObject members) h
     = client_call "core.savePage"
         (VObject [("page", member members "pageId");
                   ("text", member members "content");
                   ("summary", or_else (member members "summary") (VString ""));
                   ("isminor", or_else (member members "minor") (VBool false))]) h).
Proof.
  intros Hid Hcontent. unfold appendPage, savePage. run_members.
  rewrite Hid. cbn [negb]. run_members. rewrite Hcontent. cbn [negb].
  split; [done|]. split.
  - by intros ->.
  - intros Hdef.
    destruct (member members "content") eqn:Hc; [congruence|..];
      cbn [is_undefined]; run_members; by rewrite ?Hc.
Qed.

Lemma X20_savePage_appendPage_empty_content_witness :
  let members := [("pageId", VString "start"); ("content", VString "")] in
  let client_call := rejecting (mkError (Some "unused") None None) in
  appendPage client_call (VObject members) []
    = Some (Throw 0%nat, [fresh_Error "Content is required for append_page operation"]) ∧
  (member members "content" = VUndefined →
   savePage client_call (VObject members) []
     = Some (Throw 0%nat, [fresh_Error "Content is required for save_page operation"])) ∧
  (member members "content" ≠ VUndefined →
   savePage client_call (VObject members) []
     = client_call "core.savePage"
         (VObject [("page", member members "pageId");
                   ("text", member members "content");
                   ("summary", or_else (member members "summary") (VString ""));
                   ("isminor", or_else (member members "minor") (VBool false))]) []).
Proof.
  intros members client_call.
  apply (X20_savePage_appendPage_empty_content client_call members []); reflexivity.
Defined.

(** X21. [searchPages] takes the query from [query] and, only when that is
    missing or falsy, from [searchQuery]; when both are missing or falsy it
    throws "Search query is required for search_pages operation" without
    calling the client. *)
Theorem X21_searchPages_query
    (client_call : string → value → Js value) (members : list (string * value)) (h : heap) :
  let q := member members "query" in
  let sq := member members "searchQuery" in
  searchPages client_call (VObject members) h =
    if truthy_value q then client_call "core.searchPages" (VObject [("query", q)]) h
    else if truthy_value sq then client_call "core.searchPages" (VObject [("query", sq)]) h
    else Some (Throw (length h),
               h ++ [fresh_Error "Search query is required for search_pages operation"]).
Proof.
  intros q sq. subst q sq. unfold searchPages, ret. run_members.
  destruct (truthy_value (member members "searchQuery")) eqn:Hsq,
    (truthy_value (member members "query")) eqn:Hq;
    repeat (progress (cbn [negb]; run_members; rewrite ?Hq, ?Hsq)); done.
Qed.

(** X22. [saveMedia] takes the data from [base64_content] and, only when
    that is missing or falsy, from [content]; without either it throws
    "Content (base64 encoded) is required for save_media operation". *)
Theorem X22_saveMedia_content
    (client_call : string → value → Js value) (members : list (string * value)) (h : heap) :
  truthy_value (member members "mediaId") = true →
  let data := or_else (member members "base64_content") (member members "content") in
  saveMedia client_call (VObject members) h =
    if truthy_value data then
      client_call "core.saveMedia"
        (VObject [("media", member members "mediaId"); ("base64", data);
                  ("overwrite", or_else (member members "overwrite") (VBool false))]) h
    else Some (Throw (length h),
               h ++ [fresh_Error
                       "Content (base64 encoded) is required for save_media operation"]).
Proof.
  intros Hid data. subst data. unfold saveMedia, or_else, ret. run_members.
  rewrite Hid. cbn [negb]. run_members.
  destruct (truthy_value (member members "base64_content")) eqn:Hb; run_members.
  - by rewrite Hb.
  - by destruct (truthy_value (member members "content")).
Qed.

Lemma X22_saveMedia_content_witness :
  let members := [("mediaId", VString "logo.png"); ("content", VString "aGVsbG8=")] in
  let client_call := rejecting (mkError (Some "unused") None None) in
  let data := or_else (member members "base64_content") (member members "content") in
  saveMedia client_call (VObject members) [] =
    if truthy_value data then
      client_call "core.saveMedia"
        (VObject [("media", member members "mediaId"); ("base64", data);
                  ("overwrite", or_else (member members "overwrite") (VBool false))]) []
    else Some (Throw 0%nat,
               [fresh_Error "Content (base64 encoded) is required for save_media operation"]).
Proof.
  intros members client_call.
  apply (X22_saveMedia_content client_call members []). reflexivity.
Defined.

(** X23. For [params] an object, [listPages] never fails on its parameters:
    it always calls [core.listPages], with a namespace, a depth and a hash
    flag that are chosen independently of each other.  The namespace is
    [params.namespace] if that is truthy, and otherwise the settings'
    default namespace, or "" when there is none.  The depth is
    [params.depth] if that is truthy and 1 otherwise, so that the depth sent
    is never 0 (nor any other falsy value).  The hash flag is
    [params.include_hash] if that is truthy and [false] otherwise. *)
Theorem X23_listPages_defaults
    (client_call : string → value → Js value) (members : list (string * value))
    (userSettings : option PluginSettings) (h : heap) :
  ∃ namespace depth hash : value,
    listPages client_call (VObject members) userSettings h
    = client_call "core.listPages"
        (VObject [("namespace", namespace); ("depth", depth); ("hash", hash)]) h ∧
    namespace
    = (if truthy_value (member members "namespace") then member members "namespace"
       else VString (default "" (userSettings ≫= defaultNamespace))) ∧
    depth
    = (if truthy_value (member members "depth") then member members "depth"
       else VNumber 1) ∧
    truthy_value depth = true ∧ depth ≠ VNumber 0 ∧
    hash
    = (if truthy_value (member members "include_hash") then member members "include_hash"
       else VBool false).
Proof.
  eexists _, _, _. split.
  { unfold listPages. run_members. reflexivity. }
  unfold or_else.
  split.
  { destruct (truthy_value (member members "namespace")) eqn:Hns.
    - by rewrite Hns.
    - by destruct userSettings as [[c [[|a d]|]]|]. }
  split; [done|]. split.
  { by destruct (truthy_value (member members "depth")) eqn:Hd. }
  split; [|done].
  destruct (truthy_value (member members "depth")) eqn:Hd; [|done].
  intros Hzero. by rewrite Hzero in Hd.
Qed.

(** ** The plugin's entry point *)

Lemma call_catch_uncoded (h : heap) (m : string) :
  call_catch (length h) (h ++ [fresh_Error m])
  = Some (Throw (length h), h ++ [fresh_Error m]).
Proof. by rewrite (call_catch_run _ _ _ (lookup_new h (fresh_Error m))). Qed.

Lemma has_operation_inv (params : value) :
  has_operation params = true →
  ∃ members, params = VObject members ∧ truthy_value (member members "operation") = true.
Proof. destruct params; try done. eauto. Qed.

(** X24. Without an operation - no [params], [params] that is not an
    object, or an [operation] member that is missing or falsy -
    [manage_dokuwiki] throws "Operation parameter is required" before it
    looks at the settings or uses the network; the error has no code and is
    thrown as it is, without a suggestion. *)
Theorem X24_manage_dokuwiki_requires_operation
    (fetch : string → Request → FetchOutcome) (probe_time call_time : Z)
    (params : value) (userSettings : option PluginSettings) (h : heap) :
  has_operation params = false →
  manage_dokuwiki fetch probe_time call_time params userSettings h
  = Some (Throw (length h), h ++ [fresh_Error "Operation parameter is required"]).
Proof.
  intros Hop. unfold manage_dokuwiki, try_catch, bind at 1.
  assert ((if negb (truthy_value params) then ret true
           else op <- get_member params "operation" ;; ret (negb (truthy_value op))) h
          = Some (Normal true, h)) as ->.
  { destruct params as [| |[]|n|s|items|members]; try done.
    - cbn. by destruct (n =? 0).
    - by destruct s.
    - cbn [truthy_value negb]. run_members. cbn in Hop. by rewrite Hop. }
  cbv beta iota. rewrite throw_new_Error_run. apply call_catch_uncoded.
Qed.

Lemma X24_manage_dokuwiki_requires_operation_witness :
  manage_dokuwiki (answering (mkResponse true 200 "" (JsonRejected (mkError None None None))))
    0 0 (VObject [("pageId", VString "start")]) None []
  = Some (Throw 0%nat, [fresh_Error "Operation parameter is required"]).
Proof.
  apply (X24_manage_dokuwiki_requires_operation
           (answering (mkResponse true 200 "" (JsonRejected (mkError None None None))))
           0 0 (VObject [("pageId", VString "start")]) None []).
  reflexivity.
Defined.

(** [manage_dokuwiki] once an operation is named: the client is made, and
    what follows is decided by that. *)
Lemma manage_dokuwiki_run
    (fetch : string → Request → FetchOutcome) (probe_time call_time : Z)
    (members : list (string * value)) (userSettings : option PluginSettings) (h : heap) :
  truthy_value (member members "operation") = true →
  manage_dokuwiki fetch probe_time call_time (VObject members) userSettings h
  = match createApiClient fetch probe_time (credentials <$> userSettings) true h with
    | Some (Normal client, h1) =>
        let params := VObject members in
        let operation := member members "operation" in
        let client_call := call (jsonRpcCall fetch call_time client) in
        try_catch
          (if is_string operation "get_page" then getPage client_call params
           else if is_string operation "save_page" then savePage client_call params
           else if is_string operation "append_page" then appendPage client_call params
           else if is_string operation "list_pages" then
             listPages client_call params userSettings
           else if is_string operation "search_pages" then searchPages client_call params
           else if is_string operation "get_page_info" then getPageInfo client_call params
           else if is_string operation "get_page_history" then
             getPageHistory client_call params
           else if is_string operation "list_media" then
             listMedia client_call params userSettings
           else if is_string operation "get_media" then getMedia client_call params
           else if is_string operation "save_media" then saveMedia client_call params
           else if is_string operation "delete_media" then deleteMedia client_call params
           else throw_unsupported operation)
          call_catch h1
    | Some (Throw r, h1) => call_catch r h1
    | None => None
    end.
Proof.
  intros Hop. unfold manage_dokuwiki, try_catch. cbn [truthy_value negb].
  run_members. rewrite Hop. cbn [negb ret]. cbv beta iota.
  destruct (createApiClient _ _ _ _ h) as [[[client|r] h1]|]; [|done|done].
  run_members.
  repeat (match goal with
          | |- context [if is_string ?o ?s then _ else _] => destruct (is_string o s)
          end; [done|]).
  by run_members.
Qed.

(** X25. When the client cannot be made and the error of that failure has
    no code - as is the case for bad settings and for a failed connection
    test, even one that the server answered with a code such as 401 -
    [manage_dokuwiki] throws that very error, whatever operation was asked
    for (a routed one or not), and adds nothing to it: neither a
    description nor a suggestion, and no new object. *)
Theorem X25_manage_dokuwiki_init_failure
    (fetch : string → Request → FetchOutcome) (probe_time call_time : Z)
    (params : value) (userSettings : option PluginSettings)
    (r : loc) (e : ErrorObj) (h h1 : heap) :
  has_operation params = true →
  createApiClient fetch probe_time (credentials <$> userSettings) true h
    = Some (Throw r, h1) →
  h1 !! r = Some e →
  truthy_number (code e) = false →
  manage_dokuwiki fetch probe_time call_time params userSettings h = Some (Throw r, h1).
Proof.
  intros (members & -> & Hop)%has_operation_inv Hinit Hr Hcode.
  rewrite (manage_dokuwiki_run _ _ _ _ _ _ Hop), Hinit, (call_catch_run _ _ _ Hr).
  destruct (code e) as [c|]; [|done].
  cbn in Hcode. apply negb_false_iff in Hcode. by rewrite Hcode.
Qed.

Lemma X25_manage_dokuwiki_init_failure_witness :
  let fetch := answering (mkResponse true 200 ""
                 (JsonParsed (mkRpcResponse VNull
                    (ErrorObject (Rpc.mkErrorObject (Some 401) (Some "Unauthorized")))))) in
  let settings :=
    mkPluginSettings
      (mkSettings (Some "https://wiki.example.com") (Some "BASIC_AUTH")
         (Some "user") (Some "wrong")) None in
  let failure :=
    mkError (Some "DokuWiki API error calling core.getWikiTitle: Unauthorized")
      (Some 401) None in
  let thrown :=
    fresh_Error ("Failed to connect to DokuWiki: "
                 +:+ "DokuWiki API error calling core.getWikiTitle: Unauthorized") in
  manage_dokuwiki fetch 1 2 (VObject [("operation", VString "no_such_operation")])
    (Some settings) []
    = Some (Throw 1%nat, [failure; thrown]).
Proof.
  intros fetch settings failure thrown.
  apply (X25_manage_dokuwiki_init_failure fetch 1 2
           (VObject [("operation", VString "no_such_operation")]) (Some settings)
           1%nat thrown [] [failure; thrown]); reflexivity.
Defined.

(** X26. An operation name - a non-empty string - that is not one of the
    eleven routed ones is reported as "Unsupported operation: <name>", a new
    error without code or suggestion, and only after the client has been
    made, connection test included. *)
Theorem X26_manage_dokuwiki_unsupported_operation
    (fetch : string → Request → FetchOutcome) (probe_time call_time : Z)
    (members : list (string * value)) (userSettings : option PluginSettings)
    (client : JsonRpcClient.t) (name : string) (h h1 : heap) :
  member members "operation" = VString name →
  truthy name = true →
  known_operation (VString name) = false →
  createApiClient fetch probe_time (credentials <$> userSettings) true h
    = Some (Normal client, h1) →
  manage_dokuwiki fetch probe_time call_time (VObject members) userSettings h
  = Some (Throw (length h1),
          h1 ++ [fresh_Error ("Unsupported operation: " +:+ name)]).
Proof.
  intros Hname Hop Hknown Hinit.
  rewrite manage_dokuwiki_run by by rewrite Hname.
  rewrite Hinit, Hname. cbv zeta.
  unfold known_operation in Hknown. cbn [existsb] in Hknown.
  repeat (apply orb_false_elim in Hknown as [?Hn Hknown]).
  unfold try_catch.
  repeat match goal with
         | H : is_string _ _ = false |- _ => rewrite H; clear H
         end.
  unfold throw_unsupported. cbn [template_literal].
  rewrite throw_new_Error_run. apply call_catch_uncoded.
Qed.

Lemma X26_manage_dokuwiki_unsupported_operation_witness :
  let fetch := answering (mkResponse true 200 ""
                 (JsonParsed (mkRpcResponse (VString "Test Wiki") ErrorNull))) in
  let s := mkSettings (Some "https://wiki.example.com") (Some "BEARER_TOKEN")
             None (Some "token123") in
  let members := [("operation", VString "rename_page")] in
  manage_dokuwiki fetch 1 2 (VObject members) (Some (mkPluginSettings s None)) []
  = Some (Throw 0%nat, [fresh_Error ("Unsupported operation: " +:+ "rename_page")]).
Proof.
  intros fetch s members.
  apply (X26_manage_dokuwiki_unsupported_operation fetch 1 2 members
           (Some (mkPluginSettings s None))
           (JsonRpcClient.mk (baseUrl "https://wiki.example.com") (auth_headers s))
           "rename_page" [] []);
    reflexivity.
Defined.

(** The transport's failure for an [error] object, exactly. *)
Lemma jsonRpcCall_error_object
    (fetch : string → Request → FetchOutcome) (Date_now : Z)
    (this : JsonRpcClient.t) (method : string) (params : value)
    (response : Response) (parsed : RpcResponse) (eo : Rpc.error_object) (h : heap) :
  fetch (JsonRpcClient.baseUrl this) (request_of this Date_now method params)
    = FetchResolved response →
  ok response = true → json response = JsonParsed parsed →
  error parsed = ErrorObject eo →
  jsonRpcCall fetch Date_now this method (default_params params) h
  = Some (Throw (length h),
          h ++ [mkError (Some (with_context method (default "" (Rpc.message eo))))
                  (Rpc.code eo) None]).
Proof.
  intros Hfetch Hok Hjson Herr.
  rewrite jsonRpcCall_run. unfold request_of.
  assert (default_params (default_params params) = default_params params) as ->
    by by destruct params.
  fold (request_of this Date_now method params).
  rewrite Hfetch. unfold jsonRpcCall_outcome. by rewrite Hok, Hjson, Herr.
Qed.

(** Two passes of the enrichment pipeline, exactly. *)
Lemma call_catch_twice_run (h : heap) (e : ErrorObj) (c : Z) (d m : string) :
  code e = Some c → c ≠ 0 →
  ERROR_MESSAGES !! c = Some d →
  message e = Some m →
  ∃ e1 : ErrorObj,
    call_catch (length h) (h ++ [e]) = Some (Throw (S (length h)), h ++ [e; e1]) ∧
    call_catch (S (length h)) (h ++ [e; e1])
    = Some (Throw (S (S (length h))),
            h ++ [e; e1;
                  mkError (Some (with_suggestion (specified_message d c m)
                                   (suggestion c (specified_message d c m))))
                    (Some c) (message e1)]).
Proof.
  intros Hc Hc0 Hd Hm.
  pose proof Hc0 as Hc0'%Z.eqb_neq.
  set (e1 := mkError
               (Some (with_suggestion (enhanced_message e)
                        (suggestion c (enhanced_message e))))
               (Some c) (message e)).
  assert (length (h ++ [e]) = S (length h)) as Hlen1 by (rewrite length_app; cbn; lia).
  assert (length ((h ++ [e]) ++ [e1]) = S (S (length h))) as Hlen2
    by (rewrite !length_app; cbn; lia).
  assert (h ++ [e; e1] = (h ++ [e]) ++ [e1]) as Happ1 by by rewrite <- app_assoc.
  exists e1. split.
  - rewrite (call_catch_run _ _ _ (lookup_new h e)), Hc, Hc0', Hlen1, Happ1. done.
  - assert (enhanced_message e1 = specified_message d c m) as Hmsg.
    { unfold enhanced_message, specified_message, e1. cbn [code originalMessage message].
      rewrite Hm. cbn [ERROR_MESSAGES_at from_option]. rewrite Hd.
      cbn [truthy_string toString default from_option id].
      by rewrite (ERROR_MESSAGES_truthy _ _ Hd). }
    assert ((h ++ [e; e1]) !! S (length h) = Some e1) as Hr1
      by (rewrite Happ1, <- Hlen1; apply lookup_new).
    rewrite (call_catch_run _ _ _ Hr1). unfold e1 at 1. cbn [code]. rewrite Hc0'.
    rewrite Hmsg, Happ1, Hlen2, <- !app_assoc. done.
Qed.

(** X27. Asking the plugin for a page that does not exist gives the empty
    string, not a failure: with a client that could be made, when the
    server answers the [core.getPage] request with an [error] object of code
    121, [manage_dokuwiki] returns "". *)
Theorem X27_manage_dokuwiki_get_missing_page
    (fetch : string → Request → FetchOutcome) (probe_time call_time : Z)
    (members : list (string * value)) (userSettings : option PluginSettings)
    (client : JsonRpcClient.t) (response : Response) (parsed : RpcResponse)
    (eo : Rpc.error_object) (h h1 : heap) :
  member members "operation" = VString "get_page" →
  truthy_value (member members "pageId") = true →
  createApiClient fetch probe_time (credentials <$> userSettings) true h
    = Some (Normal client, h1) →
  fetch (JsonRpcClient.baseUrl client)
    (request_of client call_time "core.getPage"
       (VObject [("page", member members "pageId");
                 ("rev", or_else (member members "rev") (VNumber 0))]))
    = FetchResolved response →
  ok response = true → json response = JsonParsed parsed →
  error parsed = ErrorObject eo → Rpc.code eo = Some 121 →
  ∃ h' : heap,
    manage_dokuwiki fetch probe_time call_time (VObject members) userSettings h
    = Some (Normal (VString ""), h').
Proof.
  intros Hop Hid Hinit Hfetch Hok Hjson Herr Hcode.
  rewrite manage_dokuwiki_run by by rewrite Hop.
  rewrite Hinit, Hop. cbv zeta. cbn [is_string String.eqb Ascii.eqb Bool.eqb].
  destruct (call_over_transport_error_object _ _ _ _ _ _ _ _ h1 Hfetch Hok Hjson Herr)
    as (r & h' & thrown & Hcall & Hr & Hc & _).
  exists h'. unfold getPage, try_catch. run_members. rewrite Hid. cbn [negb].
  run_members. rewrite Hcall. unfold get_code, read, ret. run_members.
  rewrite Hr, Hc, Hcode. done.
Qed.

Lemma X27_manage_dokuwiki_get_missing_page_witness :
  let not_found :=
    mkResponse true 200 ""
      (JsonParsed (mkRpcResponse VNull
                     (ErrorObject (Rpc.mkErrorObject (Some 121) (Some "Page not found"))))) in
  let title := mkResponse true 200 ""
                 (JsonParsed (mkRpcResponse (VString "Test Wiki") ErrorNull)) in
  let fetch (url : string) (request : Request) :=
    FetchResolved
      (if String.eqb (method (body request)) "core.getWikiTitle" then title else not_found) in
  let s := mkSettings (Some "https://wiki.example.com") (Some "BEARER_TOKEN")
             None (Some "token123") in
  let members := [("operation", VString "get_page"); ("pageId", VString "no:such:page")] in
  ∃ h' : heap,
    manage_dokuwiki fetch 1 2 (VObject members) (Some (mkPluginSettings s None)) []
    = Some (Normal (VString ""), h').
Proof.
  intros not_found title fetch s members.
  apply (X27_manage_dokuwiki_get_missing_page fetch 1 2 members
           (Some (mkPluginSettings s None))
           (JsonRpcClient.mk (baseUrl "https://wiki.example.com") (auth_headers s))
           not_found
           (mkRpcResponse VNull
              (ErrorObject (Rpc.mkErrorObject (Some 121) (Some "Page not found"))))
           (Rpc.mkErrorObject (Some 121) (Some "Page not found")) [] []);
    reflexivity.
Defined.

(** X28. What the user of the plugin sees when the server refuses an
    operation.  With a client that could be made, when the server answers a
    [delete_media] request with an [error] object whose code is a non-zero
    table code, the failure is enriched twice (by [client.call], then by
    [manage_dokuwiki]) and the error finally thrown has that code and the
    message "<description> (Code: <code>)", then " - " and the server's
    message in its calling context, then the suggestion, if there is one. *)
Theorem X28_manage_dokuwiki_server_error
    (fetch : string → Request → FetchOutcome) (probe_time call_time : Z)
    (members : list (string * value)) (userSettings : option PluginSettings)
    (client : JsonRpcClient.t) (response : Response) (parsed : RpcResponse)
    (eo : Rpc.error_object) (c : Z) (d : string) (h h1 : heap) :
  member members "operation" = VString "delete_media" →
  truthy_value (member members "mediaId") = true →
  createApiClient fetch probe_time (credentials <$> userSettings) true h
    = Some (Normal client, h1) →
  fetch (JsonRpcClient.baseUrl client)
    (request_of client call_time "core.deleteMedia"
       (VObject [("media", member members "mediaId")]))
    = FetchResolved response →
  ok response = true → json response = JsonParsed parsed →
  error parsed = ErrorObject eo →
  Rpc.code eo = Some c → c ≠ 0 → ERROR_MESSAGES !! c = Some d →
  let technical := with_context "core.deleteMedia" (default "" (Rpc.message eo)) in
  ∃ (r : loc) (h' : heap) (thrown : ErrorObj),
    manage_dokuwiki fetch probe_time call_time (VObject members) userSettings h
      = Some (Throw r, h') ∧
    h' !! r = Some thrown ∧ code thrown = Some c ∧
    message thrown
      = Some (with_suggestion (specified_message d c technical)
                (suggestion c (specified_message d c technical))).
Proof.
  intros Hop Hid Hinit Hfetch Hok Hjson Herr Hcode Hc0 Hd technical.
  unfold technical. clear technical.
  set (technical := with_context "core.deleteMedia" (default "" (Rpc.message eo))).
  rewrite manage_dokuwiki_run by by rewrite Hop.
  rewrite Hinit, Hop. cbv zeta. cbn [is_string String.eqb Ascii.eqb Bool.eqb].
  pose proof (jsonRpcCall_error_object _ _ _ _ _ _ _ _ h1 Hfetch Hok Hjson Herr) as Hraise.
  fold technical in Hraise.
  set (e0 := mkError (Some technical) (Rpc.code eo) None) in Hraise.
  destruct (call_catch_twice_run h1 e0 c d technical) as (e1 & Hfirst & Hsecond);
    [done..|].
  unfold deleteMedia, try_catch. run_members. rewrite Hid. cbn [negb]. run_members.
  rewrite (call_throw _ _ _ _ _ _ Hraise), Hfirst, Hsecond.
  set (e2 := mkError
               (Some (with_suggestion (specified_message d c technical)
                        (suggestion c (specified_message d c technical))))
               (Some c) (message e1)).
  exists (S (S (length h1))), (h1 ++ [e0; e1; e2]), e2.
  split; [done|]. split; [|done].
  replace (h1 ++ [e0; e1; e2]) with ((h1 ++ [e0; e1]) ++ [e2])
    by by rewrite <- app_assoc.
  replace (S (S (length h1))) with (length (h1 ++ [e0; e1]))
    by (rewrite length_app; cbn; lia).
  apply lookup_new.
Qed.

Lemma X28_manage_dokuwiki_server_error_witness :
  let denied :=
    mkResponse true 200 ""
      (JsonParsed (mkRpcResponse VNull
                     (ErrorObject (Rpc.mkErrorObject (Some 212) (Some "Forbidden"))))) in
  let title := mkResponse true 200 ""
                 (JsonParsed (mkRpcResponse (VString "Test Wiki") ErrorNull)) in
  let fetch (url : string) (request : Request) :=
    FetchResolved
      (if String.eqb (method (body request)) "core.getWikiTitle" then title else denied) in
  let s := mkSettings (Some "https://wiki.example.com") (Some "BEARER_TOKEN")
             None (Some "token123") in
  let members := [("operation", VString "delete_media"); ("mediaId", VString "logo.png")] in
  let technical := with_context "core.deleteMedia" "Forbidden" in
  ∃ (r : loc) (h' : heap) (thrown : ErrorObj),
    manage_dokuwiki fetch 1 2 (VObject members) (Some (mkPluginSettings s None)) []
      = Some (Throw r, h') ∧
    h' !! r = Some thrown ∧ code thrown = Some 212 ∧
    message thrown
      = Some (with_suggestion
                (specified_message "You are not allowed to delete this media file" 212
                   technical)
                (suggestion 212
                   (specified_message "You are not allowed to delete this media file" 212
                      technical))).
Proof.
  intros denied title fetch s members.
  apply (X28_manage_dokuwiki_server_error fetch 1 2 members
           (Some (mkPluginSettings s None))
           (JsonRpcClient.mk (baseUrl "https://wiki.example.com") (auth_headers s))
           denied
           (mkRpcResponse VNull
              (ErrorObject (Rpc.mkErrorObject (Some 212) (Some "Forbidden"))))
           (Rpc.mkErrorObject (Some 212) (Some "Forbidden")) 212
           "You are not allowed to delete this media file" [] []);
    [reflexivity .. | lia | vm_compute; reflexivity].
Defined.
